(** * git-checkpoint: the controller and the repository gateway

    A shallow embedding of the Go sources
      - [internal/models/models.go]   (package [models]),
      - [main.go]                     (the Bubble Tea application [App]),
      - [internal/timekeeper/service.go] (the git [Service]),
    followed by the properties of the specification that were checked
    against them.

    Conventions.
      - A Go [string] is a sequence of bytes: Rocq's [string], whose
        literals are read byte by byte (a Cyrillic letter is two
        [ascii]s).  [len(s)] is [String.length].
      - A Go [int] or [rune] is a [Z].  Every increment and decrement of
        the sources sits under a guard that keeps the value between 0
        and the length of a slice, so no operation can wrap around.
      - A slice is a [list]; indexing out of range panics, which the
        handlers report as [Panic].
      - A Go [error] is a value of [error]; [nil] is [None]. *)

From Stdlib Require Import String Ascii List ZArith Lia Bool.
Import ListNotations.
Open Scope string_scope.
Open Scope Z_scope.

(** ** Go runtime helpers *)

Module Go.

Definition rune := Z.

(** [len(xs)] for a slice. *)
Definition len {A} (xs : list A) : Z := Z.of_nat (List.length xs).

(** [len(s)] for a string: the number of bytes. *)
Definition strlen (s : string) : Z := Z.of_nat (String.length s).

(** [xs[i]]: [None] stands for the run-time panic "index out of range". *)
Definition index {A} (xs : list A) (i : Z) : option A :=
  if i <? 0 then None else nth_error xs (Z.to_nat i).

(** [s[:len(s)-1]], used only where [len(s) > 0]. *)
Definition drop_last_byte (s : string) : string :=
  substring 0 (String.length s - 1) s.

(** [case "a", "b":] of a [switch] over a string. *)
Definition str_in (s : string) (cases : list string) : bool :=
  existsb (String.eqb s) cases.

Definition byte (z : Z) : ascii := ascii_of_N (Z.to_N (z mod 256)).

Definition bytes (zs : list Z) : string :=
  fold_right (fun z s => String (byte z) s) EmptyString zs.

(** [string(r)] for one rune: its UTF-8 encoding, U+FFFD for a value
    that is not a Unicode scalar value. *)
Definition utf8_encode_rune (r : rune) : string :=
  if (r <? 0) || (0x10FFFF <? r) || ((0xD800 <=? r) && (r <=? 0xDFFF))
  then bytes [0xEF; 0xBF; 0xBD]
  else if r <? 0x80 then bytes [r]
  else if r <? 0x800 then
    bytes [Z.lor 0xC0 (Z.shiftr r 6); Z.lor 0x80 (Z.land r 0x3F)]
  else if r <? 0x10000 then
    bytes [Z.lor 0xE0 (Z.shiftr r 12);
           Z.lor 0x80 (Z.land (Z.shiftr r 6) 0x3F);
           Z.lor 0x80 (Z.land r 0x3F)]
  else
    bytes [Z.lor 0xF0 (Z.shiftr r 18);
           Z.lor 0x80 (Z.land (Z.shiftr r 12) 0x3F);
           Z.lor 0x80 (Z.land (Z.shiftr r 6) 0x3F);
           Z.lor 0x80 (Z.land r 0x3F)].

(** [string(rs)] for a [[]rune]. *)
Definition string_of_runes (rs : list rune) : string :=
  fold_right (fun r s => utf8_encode_rune r ++ s)%string EmptyString rs.

(** [time.Time], kept as a number of seconds. *)
Definition Time := Z.

(** Go's [error] values that the sources meet.  The three sentinels are
    the ones the sources compare with [==]. *)
Inductive error : Type :=
| NoErrAlreadyUpToDate                      (* git.NoErrAlreadyUpToDate *)
| ErrRepositoryNotExists                    (* git.ErrRepositoryNotExists *)
| ErrReferenceNotFound                      (* plumbing.ErrReferenceNotFound *)
| ErrOther (text : string)                  (* any other error of os or go-git *)
| ErrWrap (prefix : string) (cause : error) (* fmt.Errorf("%s: %w", prefix, cause) *)
| ErrNew (text : string).                   (* fmt.Errorf(text) *)

(** [err == git.NoErrAlreadyUpToDate] *)
Definition is_NoErrAlreadyUpToDate (e : error) : bool :=
  match e with NoErrAlreadyUpToDate => true | _ => false end.

(** [err.Error()], which is also what [%v] prints. *)
Fixpoint Error (e : error) : string :=
  match e with
  | NoErrAlreadyUpToDate => "already up-to-date"
  | ErrRepositoryNotExists => "repository does not exist"
  | ErrReferenceNotFound => "reference not found"
  | ErrOther text => text
  | ErrWrap prefix cause => prefix ++ ": " ++ Error cause
  | ErrNew text => text
  end%string.

End Go.

Import Go.

(** ** Package [models] *)

Module models.

Record GitStatus : Type := {
  Branch : string;
  Staged : list string;
  Modified : list string;
  Untracked : list string;
  Ahead : Z;
  Behind : Z;
  IsClean : bool;
  LastCommit : string
}.

Module Checkpoint.
Record t : Type := {
  Hash : string;
  Message : string;
  Author : string;
  Date : Time;
  IsCurrent : bool
}.
End Checkpoint.

Module SyncMsg.
Record t : Type := {
  Success : bool;
  Message : string;
  Pulled : bool;
  Pushed : bool;
  Conflict : bool
}.
(** The zero value of the struct with [Success: true]. *)
Definition ok : t :=
  {| Success := true; Message := ""; Pulled := false; Pushed := false;
     Conflict := false |}.
Definition set_Message (s : string) (m : t) : t :=
  {| Success := Success m; Message := s; Pulled := Pulled m;
     Pushed := Pushed m; Conflict := Conflict m |}.
Definition set_Pulled (b : bool) (m : t) : t :=
  {| Success := Success m; Message := Message m; Pulled := b;
     Pushed := Pushed m; Conflict := Conflict m |}.
Definition set_Pushed (b : bool) (m : t) : t :=
  {| Success := Success m; Message := Message m; Pulled := Pulled m;
     Pushed := b; Conflict := Conflict m |}.
Definition set_Conflict (b : bool) (m : t) : t :=
  {| Success := Success m; Message := Message m; Pulled := Pulled m;
     Pushed := Pushed m; Conflict := b |}.
End SyncMsg.

(** The application state.  The [Repo] field of the Go struct is never
    read or written and is left out. *)
Record Model : Type := {
  Status : option GitStatus;
  Err : option error;
  Selected : Z;
  Quitting : bool;
  Checkpoints : list Checkpoint.t;
  HistoryMode : bool;
  HistorySelected : Z;
  Loading : bool;
  LoadingText : string;
  SyncMessage : string;
  ShowSyncMessage : bool;
  GitNotInitialized : bool;
  DescriptionMode : bool;
  DescriptionInput : string;
  Suggestions : list string
}.

(** Menu items *)
Definition MenuInitGit := "Начать Vibe-сессию".
Definition MenuCreateCheckpoint := "Засейвить вайб (Save Vibe)".
Definition MenuViewHistory := "История потока (Flow History)".
Definition MenuRollback := "Вернуть прошлый вайб".
Definition MenuSync := "Синкнуть с облаком".

(** Error messages *)
Definition ErrFailedToAddFiles := "не удалось добавить файлы".
Definition ErrFailedToCreateCheckpoint := "не удалось зафиксировать момент".
Definition ErrFailedToOpenRepo := "не удалось открыть проект".
Definition ErrFailedToGetWorktree := "не удалось получить рабочую папку".
Definition ErrFailedToGetStatus := "не удалось получить статус".
Definition ErrFailedToCommit := "не удалось сохранить решение конфликта".
Definition ErrFailedToAddChanges := "не удалось добавить изменения".
Definition ErrFailedToPush := "не удалось отправить копию".
Definition ErrNoRemote :=
  "Удаленное хранилище не найдено. Это только локальная версия.".
Definition ErrAlreadyUpToDate := "Всё актуально".
Definition ErrConflictsDetected := "Конфликты решены автоматически".
Definition ErrForcePushSuccess := "Копия отправлена принудительно".
Definition ErrPushSuccess := "Копия отправлена успешно".
Definition ErrPullSuccess := "Копия получена успешно".

(** Author info *)
Definition CheckpointAuthorName := "Машина Времени".
Definition CheckpointAuthorEmail := "timemachine@local".
Definition ConflictAuthorName := "Time Machine TUI".
Definition ConflictAuthorEmail := "timemachine@local".

Definition DefaultSuggestions : list string := [
  "Поймал волну 🌊";
  "Фикс на лету 🐛";
  "Новая фича готова ✨";
  "Рефакторинг для души 🧹";
  "Эксперименты с кодом 🧪";
  "Просто сейв на всякий случай 🛡️";
  "Красиво сделал 🎨";
  "Оптимизация 🚀";
  "Тесты прошли ✅";
  "Вайб чек 🤙";
  "Прогресс неостановим 🔥";
  "Магия кода 🪄";
  "Дзен-код 🧘";
  "Ещё один шаг к релизу 🎯"
].

(** [func GetMenuItems() []string]: the package-level function. *)
Definition GetMenuItems : list string :=
  [MenuCreateCheckpoint; MenuViewHistory; MenuRollback; MenuSync].

(** [func (m *Model) GetMenuItems() []string]: the method. *)
Definition Model_GetMenuItems (m : Model) : list string :=
  if GitNotInitialized m then [MenuInitGit]
  else [MenuCreateCheckpoint; MenuViewHistory; MenuRollback; MenuSync].

(** Field assignments [m.F = v]. *)
Definition set_Status v (m : Model) : Model :=
  {| Status := v; Err := Err m; Selected := Selected m;
     Quitting := Quitting m; Checkpoints := Checkpoints m;
     HistoryMode := HistoryMode m; HistorySelected := HistorySelected m;
     Loading := Loading m; LoadingText := LoadingText m;
     SyncMessage := SyncMessage m; ShowSyncMessage := ShowSyncMessage m;
     GitNotInitialized := GitNotInitialized m;
     DescriptionMode := DescriptionMode m;
     DescriptionInput := DescriptionInput m; Suggestions := Suggestions m |}.
Definition set_Err v (m : Model) : Model :=
  {| Status := Status m; Err := v; Selected := Selected m;
     Quitting := Quitting m; Checkpoints := Checkpoints m;
     HistoryMode := HistoryMode m; HistorySelected := HistorySelected m;
     Loading := Loading m; LoadingText := LoadingText m;
     SyncMessage := SyncMessage m; ShowSyncMessage := ShowSyncMessage m;
     GitNotInitialized := GitNotInitialized m;
     DescriptionMode := DescriptionMode m;
     DescriptionInput := DescriptionInput m; Suggestions := Suggestions m |}.
Definition set_Selected v (m : Model) : Model :=
  {| Status := Status m; Err := Err m; Selected := v;
     Quitting := Quitting m; Checkpoints := Checkpoints m;
     HistoryMode := HistoryMode m; HistorySelected := HistorySelected m;
     Loading := Loading m; LoadingText := LoadingText m;
     SyncMessage := SyncMessage m; ShowSyncMessage := ShowSyncMessage m;
     GitNotInitialized := GitNotInitialized m;
     DescriptionMode := DescriptionMode m;
     DescriptionInput := DescriptionInput m; Suggestions := Suggestions m |}.
Definition set_Quitting v (m : Model) : Model :=
  {| Status := Status m; Err := Err m; Selected := Selected m;
     Quitting := v; Checkpoints := Checkpoints m;
     HistoryMode := HistoryMode m; HistorySelected := HistorySelected m;
     Loading := Loading m; LoadingText := LoadingText m;
     SyncMessage := SyncMessage m; ShowSyncMessage := ShowSyncMessage m;
     GitNotInitialized := GitNotInitialized m;
     DescriptionMode := DescriptionMode m;
     DescriptionInput := DescriptionInput m; Suggestions := Suggestions m |}.
Definition set_Checkpoints v (m : Model) : Model :=
  {| Status := Status m; Err := Err m; Selected := Selected m;
     Quitting := Quitting m; Checkpoints := v;
     HistoryMode := HistoryMode m; HistorySelected := HistorySelected m;
     Loading := Loading m; LoadingText := LoadingText m;
     SyncMessage := SyncMessage m; ShowSyncMessage := ShowSyncMessage m;
     GitNotInitialized := GitNotInitialized m;
     DescriptionMode := DescriptionMode m;
     DescriptionInput := DescriptionInput m; Suggestions := Suggestions m |}.
Definition set_HistoryMode v (m : Model) : Model :=
  {| Status := Status m; Err := Err m; Selected := Selected m;
     Quitting := Quitting m; Checkpoints := Checkpoints m;
     HistoryMode := v; HistorySelected := HistorySelected m;
     Loading := Loading m; LoadingText := LoadingText m;
     SyncMessage := SyncMessage m; ShowSyncMessage := ShowSyncMessage m;
     GitNotInitialized := GitNotInitialized m;
     DescriptionMode := DescriptionMode m;
     DescriptionInput := DescriptionInput m; Suggestions := Suggestions m |}.
Definition set_HistorySelected v (m : Model) : Model :=
  {| Status := Status m; Err := Err m; Selected := Selected m;
     Quitting := Quitting m; Checkpoints := Checkpoints m;
     HistoryMode := HistoryMode m; HistorySelected := v;
     Loading := Loading m; LoadingText := LoadingText m;
     SyncMessage := SyncMessage m; ShowSyncMessage := ShowSyncMessage m;
     GitNotInitialized := GitNotInitialized m;
     DescriptionMode := DescriptionMode m;
     DescriptionInput := DescriptionInput m; Suggestions := Suggestions m |}.
Definition set_Loading v (m : Model) : Model :=
  {| Status := Status m; Err := Err m; Selected := Selected m;
     Quitting := Quitting m; Checkpoints := Checkpoints m;
     HistoryMode := HistoryMode m; HistorySelected := HistorySelected m;
     Loading := v; LoadingText := LoadingText m;
     SyncMessage := SyncMessage m; ShowSyncMessage := ShowSyncMessage m;
     GitNotInitialized := GitNotInitialized m;
     DescriptionMode := DescriptionMode m;
     DescriptionInput := DescriptionInput m; Suggestions := Suggestions m |}.
Definition set_LoadingText v (m : Model) : Model :=
  {| Status := Status m; Err := Err m; Selected := Selected m;
     Quitting := Quitting m; Checkpoints := Checkpoints m;
     HistoryMode := HistoryMode m; HistorySelected := HistorySelected m;
     Loading := Loading m; LoadingText := v;
     SyncMessage := SyncMessage m; ShowSyncMessage := ShowSyncMessage m;
     GitNotInitialized := GitNotInitialized m;
     DescriptionMode := DescriptionMode m;
     DescriptionInput := DescriptionInput m; Suggestions := Suggestions m |}.
Definition set_SyncMessage v (m : Model) : Model :=
  {| Status := Status m; Err := Err m; Selected := Selected m;
     Quitting := Quitting m; Checkpoints := Checkpoints m;
     HistoryMode := HistoryMode m; HistorySelected := HistorySelected m;
     Loading := Loading m; LoadingText := LoadingText m;
     SyncMessage := v; ShowSyncMessage := ShowSyncMessage m;
     GitNotInitialized := GitNotInitialized m;
     DescriptionMode := DescriptionMode m;
     DescriptionInput := DescriptionInput m; Suggestions := Suggestions m |}.
Definition set_ShowSyncMessage v (m : Model) : Model :=
  {| Status := Status m; Err := Err m; Selected := Selected m;
     Quitting := Quitting m; Checkpoints := Checkpoints m;
     HistoryMode := HistoryMode m; HistorySelected := HistorySelected m;
     Loading := Loading m; LoadingText := LoadingText m;
     SyncMessage := SyncMessage m; ShowSyncMessage := v;
     GitNotInitialized := GitNotInitialized m;
     DescriptionMode := DescriptionMode m;
     DescriptionInput := DescriptionInput m; Suggestions := Suggestions m |}.
Definition set_GitNotInitialized v (m : Model) : Model :=
  {| Status := Status m; Err := Err m; Selected := Selected m;
     Quitting := Quitting m; Checkpoints := Checkpoints m;
     HistoryMode := HistoryMode m; HistorySelected := HistorySelected m;
     Loading := Loading m; LoadingText := LoadingText m;
     SyncMessage := SyncMessage m; ShowSyncMessage := ShowSyncMessage m;
     GitNotInitialized := v;
     DescriptionMode := DescriptionMode m;
     DescriptionInput := DescriptionInput m; Suggestions := Suggestions m |}.
Definition set_DescriptionMode v (m : Model) : Model :=
  {| Status := Status m; Err := Err m; Selected := Selected m;
     Quitting := Quitting m; Checkpoints := Checkpoints m;
     HistoryMode := HistoryMode m; HistorySelected := HistorySelected m;
     Loading := Loading m; LoadingText := LoadingText m;
     SyncMessage := SyncMessage m; ShowSyncMessage := ShowSyncMessage m;
     GitNotInitialized := GitNotInitialized m;
     DescriptionMode := v;
     DescriptionInput := DescriptionInput m; Suggestions := Suggestions m |}.
Definition set_DescriptionInput v (m : Model) : Model :=
  {| Status := Status m; Err := Err m; Selected := Selected m;
     Quitting := Quitting m; Checkpoints := Checkpoints m;
     HistoryMode := HistoryMode m; HistorySelected := HistorySelected m;
     Loading := Loading m; LoadingText := LoadingText m;
     SyncMessage := SyncMessage m; ShowSyncMessage := ShowSyncMessage m;
     GitNotInitialized := GitNotInitialized m;
     DescriptionMode := DescriptionMode m;
     DescriptionInput := v; Suggestions := Suggestions m |}.
Definition set_Suggestions v (m : Model) : Model :=
  {| Status := Status m; Err := Err m; Selected := Selected m;
     Quitting := Quitting m; Checkpoints := Checkpoints m;
     HistoryMode := HistoryMode m; HistorySelected := HistorySelected m;
     Loading := Loading m; LoadingText := LoadingText m;
     SyncMessage := SyncMessage m; ShowSyncMessage := ShowSyncMessage m;
     GitNotInitialized := GitNotInitialized m;
     DescriptionMode := DescriptionMode m;
     DescriptionInput := DescriptionInput m; Suggestions := v |}.

End models.

(** ** Bubble Tea: keys, messages and commands *)

Module tea.

(** [tea.KeyType].  The constructors are the key types the sources
    name; every other key type is a [KeyOther]. *)
Inductive KeyType : Type :=
| KeyRunes | KeyEscape | KeyEnter | KeyBackspace
| KeySpace | KeyUp | KeyDown | KeyCtrlC
| KeyOther (code : Z).

(** [tea.KeyMsg].  The sources read [msg.Type], [msg.Runes] and
    [msg.String()].  The library computes the last from the first two;
    the record keeps it as a field, so that what is proved of a handler
    holds whatever the library prints for a key. *)
Record KeyMsg : Type := {
  KType : KeyType;
  Runes : list rune;
  KString : string
}.

(** The keys a terminal sends. *)
Definition key_runes (rs : list rune) : KeyMsg :=
  {| KType := KeyRunes; Runes := rs; KString := string_of_runes rs |}.
Definition key_char (c : string) (r : rune) : KeyMsg :=
  {| KType := KeyRunes; Runes := [r]; KString := c |}.
Definition key_down : KeyMsg := {| KType := KeyDown; Runes := []; KString := "down" |}.
Definition key_enter : KeyMsg := {| KType := KeyEnter; Runes := []; KString := "enter" |}.
Definition key_esc : KeyMsg := {| KType := KeyEscape; Runes := []; KString := "esc" |}.
Definition key_backspace : KeyMsg :=
  {| KType := KeyBackspace; Runes := []; KString := "backspace" |}.
Definition key_ctrl_c : KeyMsg :=
  {| KType := KeyCtrlC; Runes := []; KString := "ctrl+c" |}.

(** [tea.Msg]: the messages [Update] distinguishes. *)
Inductive Msg : Type :=
| GitStatusMsg (s : models.GitStatus)                    (* *models.GitStatus *)
| ErrMsg (Error : error)
| StatusMsg (Text : string)
| GitInitializedMsg
| CheckpointCreatedMsg (Success : bool) (Message : string)
| CheckpointsLoadedMsg (Checkpoints : list models.Checkpoint.t)
| RollbackMsg (Success : bool) (Message : string)
| DescriptionModeMsg (Suggestions : list string)
| GitNotInitializedMsg (Message : string)
| SyncMsg (s : models.SyncMsg.t)
| Key (k : KeyMsg)                                       (* tea.KeyMsg *)
| OtherMsg.                                              (* any other message *)

(** [tea.Cmd]: the operations the controller schedules.  Each one
    delivers one message when it completes. *)
Inductive Cmd : Type :=
| Quit                                      (* tea.Quit *)
| LoadStatus                                (* a.gitService.LoadStatus *)
| InitGit                                   (* a.gitService.InitGit *)
| LoadCheckpoints                           (* a.gitService.LoadCheckpoints *)
| SyncWithRemote                            (* a.gitService.SyncWithRemote *)
| SendDescriptionMode (suggestions : list string)
| CreateCheckpoint (description : string)
| RollbackToCheckpoint (hash : string).

End tea.

(** ** Package [main]: the application *)

Module App.
Import models tea.

(** What a handler leaves behind: the model and the command it returns,
    or a run-time panic. *)
Inductive Result : Type :=
| Ret (m : Model) (cmd : option Cmd)
| Panic.

Definition quit (m : Model) : Result := Ret (set_Quitting true m) (Some Quit).

Definition start_loading (text : string) (m : Model) : Model :=
  set_LoadingText text (set_Loading true m).

(** [func (a *App) handleMenuSelection() tea.Cmd] *)
Definition handleMenuSelection (m : Model) : Result :=
  let menuItems := Model_GetMenuItems m in
  if Selected m >=? len menuItems then Ret m None
  else
    match index menuItems (Selected m) with
    | None => Panic
    | Some selectedItem =>
        if String.eqb selectedItem MenuInitGit then
          Ret (start_loading "Настраиваю пространство..." m) (Some InitGit)
        else if String.eqb selectedItem MenuCreateCheckpoint then
          Ret (start_loading "Ловлю вдохновение..." m)
              (Some (SendDescriptionMode DefaultSuggestions))
        else if String.eqb selectedItem MenuViewHistory then
          Ret (start_loading "Вспоминаем былое..." m) (Some LoadCheckpoints)
        else if String.eqb selectedItem MenuRollback then
          Ret (start_loading "Вспоминаем былое..." m) (Some LoadCheckpoints)
        else if String.eqb selectedItem MenuSync then
          Ret (start_loading "Синхронизирую потоки..." m) (Some SyncWithRemote)
        else Ret m None
    end.

(** The number-key block that opens [handleDescriptionInput]: [Some]
    when it returns from the handler, [None] when control falls through
    to the switch on [msg.Type]. *)
Definition pickSuggestion (msg : KeyMsg) (m : Model) : option Result :=
  match Runes msg with
  | [r] =>
      if (49 <=? r) && (r <=? 57) then        (* r >= '1' && r <= '9' *)
        let index := r - 49 in
        if index <? len (Suggestions m) then
          match Go.index (Suggestions m) index with
          | Some s => Some (Ret (set_DescriptionInput s m) None)
          | None => Some Panic
          end
        else None
      else None
  | _ => None
  end.

(** [func (a *App) handleDescriptionInput(msg tea.KeyMsg)] *)
Definition handleDescriptionInput (msg : KeyMsg) (m : Model) : Result :=
  match pickSuggestion msg m with
  | Some res => res
  | None =>
      match KType msg with
      | KeyEscape =>
          Ret (set_DescriptionInput "" (set_DescriptionMode false m)) None
      | KeyEnter =>
          let description :=
            if String.eqb (DescriptionInput m) "" then "Сейв без описания"
            else DescriptionInput m in
          Ret (start_loading "Сейвлю вайб..." (set_DescriptionMode false m))
              (Some (CreateCheckpoint description))
      | KeyBackspace =>
          if strlen (DescriptionInput m) >? 0 then
            Ret (set_DescriptionInput (drop_last_byte (DescriptionInput m)) m)
                None
          else Ret m None
      | KeyRunes =>
          match Runes msg with
          | [] => Panic                       (* msg.Runes[0] *)
          | r :: _ =>
              if (r <? 49) || (r >? 57) then
                Ret (set_DescriptionInput
                       (DescriptionInput m ++ string_of_runes (Runes msg)) m)
                    None
              else Ret m None
          end
      | _ =>
          if str_in (KString msg) ["ctrl+c"] then quit m else Ret m None
      end
  end.

(** [func (a *App) handleHistoryInput(msg tea.KeyMsg)] *)
Definition handleHistoryInput (msg : KeyMsg) (m : Model) : Result :=
  match KType msg with
  | KeyEscape => Ret (set_HistoryMode false m) None
  | KeyBackspace => Ret (set_HistoryMode false m) None
  | _ =>
      let s := KString msg in
      if str_in s ["ctrl+c"] then quit m
      else if str_in s ["q"] then quit m
      else if str_in s ["esc"; "escape"] then Ret (set_HistoryMode false m) None
      else if str_in s ["up"; "k"] then
        if HistorySelected m >? 0
        then Ret (set_HistorySelected (HistorySelected m - 1) m) None
        else Ret m None
      else if str_in s ["down"; "j"] then
        if HistorySelected m <? len (Checkpoints m) - 1
        then Ret (set_HistorySelected (HistorySelected m + 1) m) None
        else Ret m None
      else if str_in s ["enter"; " "] then
        if HistorySelected m <? len (Checkpoints m) then
          match index (Checkpoints m) (HistorySelected m) with
          | None => Panic
          | Some checkpoint =>
              Ret (start_loading "Возвращаю старый вайб..." m)
                  (Some (RollbackToCheckpoint (Checkpoint.Hash checkpoint)))
          end
        else Ret m None
      else Ret m None
  end.

(** The [if a.model.ShowSyncMessage] block of [handleKeyMsg]. *)
Definition clearSyncMessage (m : Model) : Model :=
  if ShowSyncMessage m
  then set_SyncMessage "" (set_ShowSyncMessage false m)
  else m.

(** [func (a *App) handleKeyMsg(msg tea.KeyMsg)] *)
Definition handleKeyMsg (msg : KeyMsg) (m : Model) : Result :=
  if Loading m then Ret m None
  else
    let m := clearSyncMessage m in
    if DescriptionMode m then handleDescriptionInput msg m
    else if HistoryMode m then handleHistoryInput msg m
    else
      match KType msg with
      | KeyEscape => quit m
      | _ =>
          let s := KString msg in
          if str_in s ["ctrl+c"; "q"] then quit m
          else if str_in s ["esc"; "escape"] then quit m
          else if str_in s ["up"; "k"] then
            if Selected m >? 0
            then Ret (set_Selected (Selected m - 1) m) None
            else Ret m None
          else if str_in s ["down"; "j"] then
            if Selected m <? len GetMenuItems - 1
            then Ret (set_Selected (Selected m + 1) m) None
            else Ret m None
          else if str_in s ["enter"; " "] then handleMenuSelection m
          else if str_in s ["c"] then handleMenuSelection (set_Selected 0 m)
          else if str_in s ["h"] then handleMenuSelection (set_Selected 1 m)
          else if str_in s ["r"] then handleMenuSelection (set_Selected 2 m)
          else if str_in s ["s"] then handleMenuSelection (set_Selected 3 m)
          else Ret m None
      end.

(** [func (a *App) Update(msg tea.Msg)] *)
Definition Update (msg : Msg) (m : Model) : Result :=
  match msg with
  | GitStatusMsg s => Ret (set_Loading false (set_Status (Some s) m)) None
  | ErrMsg e => Ret (set_Loading false (set_Err (Some e) m)) None
  | StatusMsg _ => Ret (set_Loading false m) None
  | GitInitializedMsg =>
      Ret (set_Loading false (set_Err None (set_GitNotInitialized false m)))
          (Some LoadStatus)
  | CheckpointCreatedMsg success _ =>
      Ret (set_Loading false m) (if success then Some LoadStatus else None)
  | CheckpointsLoadedMsg cps =>
      Ret (set_Loading false
             (set_HistorySelected 0 (set_HistoryMode true (set_Checkpoints cps m))))
          None
  | RollbackMsg success _ =>
      Ret (set_HistoryMode false (set_Loading false m))
          (if success then Some LoadStatus else None)
  | DescriptionModeMsg suggestions =>
      Ret (set_Suggestions suggestions
             (set_DescriptionInput "" (set_DescriptionMode true (set_Loading false m))))
          None
  | GitNotInitializedMsg message =>
      Ret (set_Loading false
             (set_Err (Some (ErrNew message)) (set_GitNotInitialized true m)))
          None
  | SyncMsg s =>
      if SyncMsg.Success s then Ret (set_Loading false m) (Some LoadStatus)
      else
        Ret (set_ShowSyncMessage true
               (set_SyncMessage (SyncMsg.Message s) (set_Loading false m)))
            None
  | Key k => handleKeyMsg k m
  | OtherMsg => Ret m None
  end.

(** The event loop feeds the messages to [Update] one at a time; the
    commands returned on the way are collected in order.  [None] when a
    handler panics. *)
Fixpoint feed (msgs : list Msg) (m : Model) : option (Model * list Cmd) :=
  match msgs with
  | [] => Some (m, [])
  | msg :: rest =>
      match Update msg m with
      | Panic => None
      | Ret m' cmd =>
          match feed rest m' with
          | None => None
          | Some (m'', cmds) =>
              Some (m'', match cmd with Some c => c :: cmds | None => cmds end)
          end
      end
  end.

(** The model [main] starts from: [models.Model{Selected: 0}]. *)
Definition initial : Model :=
  {| Status := None; Err := None; Selected := 0; Quitting := false;
     Checkpoints := []; HistoryMode := false; HistorySelected := 0;
     Loading := false; LoadingText := ""; SyncMessage := "";
     ShowSyncMessage := false; GitNotInitialized := false;
     DescriptionMode := false; DescriptionInput := ""; Suggestions := [] |}.

End App.

(** ** Package [timekeeper]: the git service *)

Module timekeeper.
Import models tea.

(** A Go result [(T, error)]. *)
Inductive res (A : Type) : Type :=
| Ok (a : A)
| Fail (e : error).
Arguments Ok {A} a.
Arguments Fail {A} e.

(** The option structs of go-git, with the fields the service sets. *)
Record Signature : Type := { Name : string; Email : string; When : Time }.
Record CommitOptions : Type := { Author : Signature }.
Record PullOptions : Type := { PullRemoteName : string }.
Record PushOptions : Type := { PushRemoteName : string; Force : bool }.
Inductive ResetMode : Type := HardReset.
Inductive LogOrder : Type := LogOrderCommitterTime.

(** What the service does not implement itself: the operating system,
    the clock, [fmt]'s verbs and go-git.  [World] is everything these
    calls read and write (the disk, the remote, the clock); the other
    types are the handles and values go-git hands out.  A call that only
    reads takes the world; a call that may write returns the next one. *)
Record Engine : Type := {
  World : Type;
  Repository : Type;
  Worktree : Type;
  Remote : Type;
  Hash : Type;
  WorktreeStatus : Type;

  Getwd : World -> res string;                           (* os.Getwd *)
  Now : World -> Time * World;                           (* time.Now *)
  Format : Time -> string;          (* t.Format("2006-01-02 15:04:05") *)
  Sprintf_prec7 : string -> string;              (* fmt.Sprintf("%.7s", s) *)

  PlainOpen : string -> World -> res Repository;         (* git.PlainOpen *)
  Repo_Worktree : Repository -> World -> res Worktree;   (* repo.Worktree *)
  Repo_Remote : Repository -> string -> World -> res Remote;
  Repo_Head : Repository -> World -> res Hash;           (* repo.Head, .Hash() *)
  (** [repo.Log] then [ForEach]: the commits the iterator yields, in
      order, and the error that stops it, if any. *)
  Repo_Log : Repository -> Hash -> LogOrder -> World ->
             res (list (Hash * string * Signature) * option error);
  Worktree_Status : Worktree -> World -> res WorktreeStatus;
  Status_IsClean : WorktreeStatus -> bool;
  Worktree_Add : Worktree -> string -> World -> res Hash * World;
  Worktree_Commit : Worktree -> string -> CommitOptions -> World ->
                    res Hash * World;
  Worktree_Reset : Worktree -> Hash -> ResetMode -> World ->
                   option error * World;
  Worktree_Pull : Worktree -> PullOptions -> World -> option error * World;
  Remote_Push : Remote -> PushOptions -> World -> option error * World;

  NewHash : string -> Hash;                              (* plumbing.NewHash *)
  Hash_String : Hash -> string                           (* h.String() *)
}.

Section Service.
Variable E : Engine.

(** The calls a run of the service makes, in order. *)
Inductive Call : Type :=
| CGetwd
| CNow
| CPrintln (line : string)
| CPlainOpen (path : string)
| CWorktree
| CRemote (name : string)
| CHead
| CLog (from : Hash E) (order : LogOrder)
| CStatus
| CAdd (path : string)
| CCommit (msg : string) (opts : CommitOptions)
| CReset (commit : Hash E) (mode : ResetMode)
| CPull (opts : PullOptions)
| CPush (opts : PushOptions).

(** The calls that talk to the remote. *)
Definition is_network (c : Call) : bool :=
  match c with
  | CPull _ | CPush _ => true
  | _ => false
  end.

(** The calls that may write to the repository or to the remote. *)
Definition is_write (c : Call) : bool :=
  match c with
  | CAdd _ | CCommit _ _ | CReset _ _ | CPull _ | CPush _ => true
  | _ => false
  end.

Record State : Type := { world : World E; calls : list Call }.

Definition log (c : Call) (st : State) : State :=
  {| world := world st; calls := calls st ++ [c] |}.

(** A piece of a service method: it runs from a state and either
    leaves the method with the message it returns ([inl]) or goes on
    with a value ([inr]). *)
Definition M (A : Type) : Type := State -> (Msg + A) * State.

Definition ret {A} (a : A) : M A := fun st => (inr a, st).

Definition bind {A B} (c : M A) (k : A -> M B) : M B :=
  fun st =>
    match c st with
    | (inl msg, st') => (inl msg, st')
    | (inr a, st') => k a st'
    end.

(** Go's [return msg]. *)
Definition Return {A} (msg : Msg) : M A := fun st => (inl msg, st).

(** A call that reads the world. *)
Definition read {A} (c : Call) (f : World E -> A) : M A :=
  fun st => (inr (f (world st)), log c st).

(** A call that may change the world. *)
Definition exec {A} (c : Call) (f : World E -> A * World E) : M A :=
  fun st =>
    let (a, w) := f (world st) in
    (inr a, {| world := w; calls := calls st ++ [c] |}).

(** [x, err := call; if err != nil { return onErr(err) }] *)
Definition orReturn {A} (c : M (res A)) (onErr : error -> Msg) : M A :=
  bind c (fun r => match r with Ok a => ret a | Fail e => Return (onErr e) end).

(** [err = call; if err != nil { return onErr(err) }] *)
Definition orReturn' (c : M (option error)) (onErr : error -> Msg) : M unit :=
  bind c (fun r => match r with None => ret tt | Some e => Return (onErr e) end).

Local Notation "x <- c ;; k" := (bind c (fun x => k))
  (at level 61, c at next level, right associativity).
Local Notation "c ;;; k" := (bind c (fun _ => k))
  (at level 61, right associativity).

(** Running a method in a world: the message it returns, the world it
    leaves and the calls it made. *)
Definition run (body : M Msg) (w : World E) : Msg * World E * list Call :=
  match body {| world := w; calls := [] |} with
  | (inl msg, st) => (msg, world st, calls st)
  | (inr msg, st) => (msg, world st, calls st)
  end.

(** The message a method or its last part returns, by either way. *)
Definition returned (r : (Msg + Msg) * State) : Msg :=
  match fst r with
  | inl msg => msg
  | inr msg => msg
  end.

Definition println (line : string) : M unit :=
  read (CPrintln line) (fun _ => tt).

Definition wrap (prefix : string) (e : error) : Msg := ErrMsg (ErrWrap prefix e).

(** [func (s *Service) CreateCheckpoint(description string) tea.Msg] *)
Definition CreateCheckpoint (description : string) : M Msg :=
  pwd <- orReturn (read CGetwd (Getwd E)) ErrMsg ;;
  repo <- orReturn (read (CPlainOpen pwd) (PlainOpen E pwd)) ErrMsg ;;
  worktree <- orReturn (read CWorktree (Repo_Worktree E repo)) ErrMsg ;;
  _ <- orReturn (exec (CAdd ".") (Worktree_Add E worktree "."))
                (wrap ErrFailedToAddFiles) ;;
  now <- exec CNow (Now E) ;;
  let opts := {| Author := {| Name := CheckpointAuthorName;
                               Email := CheckpointAuthorEmail;
                               When := now |} |} in
  commit <- orReturn (exec (CCommit description opts)
                           (Worktree_Commit E worktree description opts))
                     (wrap ErrFailedToCreateCheckpoint) ;;
  ret (CheckpointCreatedMsg true
         ("Момент зафиксирован: " ++ Sprintf_prec7 E (Hash_String E commit))).

(** The callback of [commitIter.ForEach] in [LoadCheckpoints]. *)
Definition toCheckpoint (currentHash : string)
    (commit : Hash E * string * Signature) : Checkpoint.t :=
  let '(hash, message, author) := commit in
  {| Checkpoint.Hash := Hash_String E hash;
     Checkpoint.Message := message;
     Checkpoint.Author := Name author;
     Checkpoint.Date := When author;
     Checkpoint.IsCurrent := String.eqb (Hash_String E hash) currentHash |}.

(** [func (s *Service) LoadCheckpoints() tea.Msg] *)
Definition LoadCheckpoints : M Msg :=
  pwd <- orReturn (read CGetwd (Getwd E)) ErrMsg ;;
  repo <- orReturn (read (CPlainOpen pwd) (PlainOpen E pwd)) ErrMsg ;;
  head <- orReturn (read CHead (Repo_Head E repo)) ErrMsg ;;
  commitIter <- orReturn (read (CLog head LogOrderCommitterTime)
                               (Repo_Log E repo head LogOrderCommitterTime))
                         ErrMsg ;;
  let currentHash := Hash_String E head in
  let checkpoints := map (toCheckpoint currentHash) (fst commitIter) in
  match snd commitIter with
  | Some err => Return (ErrMsg err)
  | None => ret (CheckpointsLoadedMsg checkpoints)
  end.

(** [func (s *Service) RollbackToCheckpoint(hash string) tea.Msg] *)
Definition RollbackToCheckpoint (hash : string) : M Msg :=
  pwd <- orReturn (read CGetwd (Getwd E)) ErrMsg ;;
  repo <- orReturn (read (CPlainOpen pwd) (PlainOpen E pwd)) ErrMsg ;;
  worktree <- orReturn (read CWorktree (Repo_Worktree E repo)) ErrMsg ;;
  let commitHash := NewHash E hash in
  err <- exec (CReset commitHash HardReset)
              (Worktree_Reset E worktree commitHash HardReset) ;;
  match err with
  | Some err =>
      Return (RollbackMsg false ("Не удалось перемотать: " ++ Error err))
  | None =>
      ret (RollbackMsg true
             ("Успешно перемотали к моменту: " ++ Sprintf_prec7 E hash))
  end.

(** [SyncWithRemote], the pull and what follows its failure: from
    [syncMsg := models.SyncMsg{Success: true}] to the end of the
    [if pullErr != nil] statement.  It yields [syncMsg]. *)
Definition syncPull (worktree : Worktree E) : M SyncMsg.t :=
  let syncMsg := SyncMsg.ok in
  println "Pulling from remote..." ;;;
  let pullOpts := {| PullRemoteName := "origin" |} in
  pullErr <- exec (CPull pullOpts) (Worktree_Pull E worktree pullOpts) ;;
  match pullErr with
  | Some pullErr =>
      if is_NoErrAlreadyUpToDate pullErr then
        ret (SyncMsg.set_Pulled false
               (SyncMsg.set_Message ErrAlreadyUpToDate syncMsg))
      else
        println "Conflicts detected, forcing local changes..." ;;;
        status <- orReturn (read CStatus (Worktree_Status E worktree))
                           (wrap ErrFailedToGetStatus) ;;
        (if negb (Status_IsClean E status) then
           _ <- orReturn (exec (CAdd ".") (Worktree_Add E worktree "."))
                         (wrap ErrFailedToAddChanges) ;;
           timestamp <- exec CNow (fun w => let (t, w') := Now E w in
                                            (Format E t, w')) ;;
           let commitMsg := "Auto-resolve conflicts: " ++ timestamp in
           now <- exec CNow (Now E) ;;
           let opts := {| Author := {| Name := ConflictAuthorName;
                                        Email := ConflictAuthorEmail;
                                        When := now |} |} in
           _ <- orReturn (exec (CCommit commitMsg opts)
                               (Worktree_Commit E worktree commitMsg opts))
                         (wrap ErrFailedToCommit) ;;
           ret tt
         else ret tt) ;;;
        ret (SyncMsg.set_Message ErrConflictsDetected
               (SyncMsg.set_Conflict true syncMsg))
  | None =>
      ret (SyncMsg.set_Message ErrPullSuccess (SyncMsg.set_Pulled true syncMsg))
  end.

(** [syncMsg.Message] after a push: [whenUpToDate] if the pull left
    "up to date", the pull's notice followed by [suffix] otherwise. *)
Definition pushNotice (syncMsg : SyncMsg.t) (whenUpToDate suffix : string)
    : string :=
  if String.eqb (SyncMsg.Message syncMsg) ErrAlreadyUpToDate
  then whenUpToDate
  else SyncMsg.Message syncMsg ++ suffix.

(** [SyncWithRemote], the push: from [fmt.Println("Pushing to
    remote...")] to [return syncMsg]. *)
Definition syncPush (remote : Remote E) (syncMsg : SyncMsg.t) : M Msg :=
  println "Pushing to remote..." ;;;
  let pushOpts := {| PushRemoteName := "origin"; Force := false |} in
  pushErr <- exec (CPush pushOpts) (Remote_Push E remote pushOpts) ;;
  match pushErr with
  | Some pushErr =>
      if is_NoErrAlreadyUpToDate pushErr then
        ret (SyncMsg
               (SyncMsg.set_Pushed false
                  (SyncMsg.set_Message
                     (pushNotice syncMsg ErrAlreadyUpToDate
                                 ", already up to date on push")
                     syncMsg)))
      else
        println "Normal push failed, trying force push..." ;;;
        let forceOpts := {| PushRemoteName := "origin"; Force := true |} in
        _ <- orReturn' (exec (CPush forceOpts)
                             (Remote_Push E remote forceOpts))
                       (wrap ErrFailedToPush) ;;
        ret (SyncMsg
               (SyncMsg.set_Message
                  (pushNotice syncMsg ErrForcePushSuccess
                              ", force pushed successfully")
                  (SyncMsg.set_Pushed true syncMsg)))
  | None =>
      ret (SyncMsg
             (SyncMsg.set_Message
                (pushNotice syncMsg ErrPushSuccess ", pushed successfully")
                (SyncMsg.set_Pushed true syncMsg)))
  end.

(** The literal returned when there is no remote named [origin]. *)
Definition noRemote : SyncMsg.t :=
  {| SyncMsg.Success := false; SyncMsg.Message := ErrNoRemote;
     SyncMsg.Pulled := false; SyncMsg.Pushed := false;
     SyncMsg.Conflict := false |}.

(** [func (s *Service) SyncWithRemote() tea.Msg] *)
Definition SyncWithRemote : M Msg :=
  pwd <- orReturn (read CGetwd (Getwd E)) ErrMsg ;;
  repo <- orReturn (read (CPlainOpen pwd) (PlainOpen E pwd))
                   (wrap ErrFailedToOpenRepo) ;;
  worktree <- orReturn (read CWorktree (Repo_Worktree E repo))
                       (wrap ErrFailedToGetWorktree) ;;
  remote <- orReturn (read (CRemote "origin") (Repo_Remote E repo "origin"))
                     (fun _ => SyncMsg noRemote) ;;
  syncMsg <- syncPull worktree ;;
  syncPush remote syncMsg.

End Service.

Arguments CGetwd {E}.
Arguments CNow {E}.
Arguments CPrintln {E} line.
Arguments CPlainOpen {E} path.
Arguments CWorktree {E}.
Arguments CRemote {E} name.
Arguments CHead {E}.
Arguments CLog {E} from order.
Arguments CStatus {E}.
Arguments CAdd {E} path.
Arguments CCommit {E} msg opts.
Arguments CReset {E} commit mode.
Arguments CPull {E} opts.
Arguments CPush {E} opts.
Arguments is_network {E} c.
Arguments is_write {E} c.
Arguments Build_State {E} world calls.
Arguments world {E} s.
Arguments calls {E} s.
Arguments run {E} body w.
Arguments returned {E} r.

End timekeeper.

(** ** An engine in memory

    A repository with a linear history and a remote whose answers are
    fixed in advance.  It is the engine the service is run on below. *)

Module memgit.
Import timekeeper.

Definition commit : Type := (string * string * Signature)%type.

Record repo : Type := {
  history : list commit;          (* newest first; the first one is HEAD *)
  dirty : bool;                   (* uncommitted changes in the work tree *)
  origin : bool;                  (* a remote named "origin" is configured *)
  add_answer : option error;
  commit_answer : option error;
  pull_answer : option error;
  push_answer : option error;
  force_answer : option error;
  clock : Time
}.

Definition with_history (h : list commit) (d : bool) (w : repo) : repo :=
  {| history := h; dirty := d; origin := origin w;
     add_answer := add_answer w; commit_answer := commit_answer w;
     pull_answer := pull_answer w; push_answer := push_answer w;
     force_answer := force_answer w; clock := clock w |}.

Definition tick (w : repo) : repo :=
  {| history := history w; dirty := dirty w; origin := origin w;
     add_answer := add_answer w; commit_answer := commit_answer w;
     pull_answer := pull_answer w; push_answer := push_answer w;
     force_answer := force_answer w; clock := clock w + 1 |}.

Definition commit_hash (c : commit) : string := fst (fst c).

(** The part of the history that starts at the commit [h]. *)
Fixpoint since (h : string) (cs : list commit) : option (list commit) :=
  match cs with
  | [] => None
  | c :: rest => if String.eqb (commit_hash c) h then Some cs else since h rest
  end.

(** The name of the next commit: one ["c"] for each commit made so far. *)
Fixpoint fresh (n : nat) : string :=
  match n with
  | O => "c"
  | S k => String "c" (fresh k)
  end.

Definition not_found : error := ErrOther "object not found".

Definition engine : Engine := {|
  World := repo;
  Repository := unit;
  Worktree := unit;
  Remote := unit;
  Hash := string;
  WorktreeStatus := bool;
  Getwd := fun _ => Ok "/work";
  Now := fun w => (clock w, tick w);
  Format := fun _ => "2024-05-17 10:30:00";
  Sprintf_prec7 := substring 0 7;
  PlainOpen := fun _ _ => Ok tt;
  Repo_Worktree := fun _ _ => Ok tt;
  Repo_Remote := fun _ name w =>
    if origin w && String.eqb name "origin" then Ok tt
    else Fail (ErrOther "remote not found");
  Repo_Head := fun _ w =>
    match history w with
    | [] => Fail ErrReferenceNotFound
    | c :: _ => Ok (commit_hash c)
    end;
  Repo_Log := fun _ from _ w =>
    match since from (history w) with
    | Some cs => Ok (cs, None)
    | None => Fail not_found
    end;
  Worktree_Status := fun _ w => Ok (negb (dirty w));
  Status_IsClean := fun clean => clean;
  Worktree_Add := fun _ _ w =>
    match add_answer w with
    | Some e => (Fail e, w)
    | None => (Ok "", w)
    end;
  Worktree_Commit := fun _ msg opts w =>
    match commit_answer w with
    | Some e => (Fail e, w)
    | None =>
        let h := fresh (List.length (history w)) in
        (Ok h, with_history ((h, msg, Author opts) :: history w) false w)
    end;
  Worktree_Reset := fun _ h _ w =>
    match since h (history w) with
    | Some cs => (None, with_history cs false w)
    | None => (Some not_found, w)
    end;
  Worktree_Pull := fun _ _ w => (pull_answer w, w);
  Remote_Push := fun _ opts w =>
    ((if Force opts then force_answer w else push_answer w), w);
  NewHash := fun s => s;
  Hash_String := fun h => h
|}.

(** A state of the service on this engine. *)
Definition state (w : repo) (made : list (Call engine)) : State engine :=
  Build_State (E := engine) w made.

(** A clean repository with one commit and no remote. *)
Definition local_only : repo :=
  {| history := [("c", "first", {| Name := "me"; Email := "me@local"; When := 0 |})];
     dirty := false; origin := false;
     add_answer := None; commit_answer := None; pull_answer := None;
     push_answer := None; force_answer := None; clock := 100 |}.

(** A repository with uncommitted changes whose remote has diverged:
    the pull fails and the plain push is rejected. *)
Definition diverged : repo :=
  {| history := [("c", "first", {| Name := "me"; Email := "me@local"; When := 0 |})];
     dirty := true; origin := true;
     add_answer := None; commit_answer := None;
     pull_answer := Some (ErrOther "non-fast-forward update");
     push_answer := Some (ErrOther "non-fast-forward update");
     force_answer := None; clock := 100 |}.


(** [diverged] after its conflict has been committed. *)
Definition resolved : repo :=
  with_history
    (("cc", "Auto-resolve conflicts: 2024-05-17 10:30:00",
      {| Name := models.ConflictAuthorName;
         Email := models.ConflictAuthorEmail; When := 101 |})
       :: history diverged)
    false (tick (tick diverged)).

Definition plain : PushOptions := {| PushRemoteName := "origin"; Force := false |}.
Definition forced : PushOptions := {| PushRemoteName := "origin"; Force := true |}.

End memgit.

(** ** Vocabulary of the properties *)

Module Props.
Import models tea App.








(** The model while an operation is in flight. *)
Definition loading : Model := start_loading "Синхронизирую потоки..." initial.

(** The model after [LoadStatus] found no repository. *)
Definition uninitialized : Model :=
  set_Loading false
    (set_Err (Some (ErrNew "Машина времени не запущена в этой папке"))
       (set_GitNotInitialized true initial)).

(** The model in description mode with the default suggestions. *)
Definition describing : Model :=
  set_Suggestions DefaultSuggestions
    (set_DescriptionInput "" (set_DescriptionMode true initial)).

(** The model in history mode with two checkpoints loaded. *)
Definition browsing : Model :=
  set_HistorySelected 0
    (set_HistoryMode true
       (set_Checkpoints
          [ {| Checkpoint.Hash := "cc"; Checkpoint.Message := "second";
               Checkpoint.Author := "me"; Checkpoint.Date := 2;
               Checkpoint.IsCurrent := true |};
            {| Checkpoint.Hash := "c"; Checkpoint.Message := "first";
               Checkpoint.Author := "me"; Checkpoint.Date := 1;
               Checkpoint.IsCurrent := false |} ]
          initial)).

(** Engine contract: a commit that succeeds becomes the head, a log
    that starts from it and runs to the end yields it first, and it
    carries the message it was given. *)
Definition commit_is_head_of_log (E : timekeeper.Engine) : Prop :=
  forall wt msg opts w h w',
    timekeeper.Worktree_Commit E wt msg opts w = (timekeeper.Ok h, w') ->
    forall repo,
      (forall h', timekeeper.Repo_Head E repo w' = timekeeper.Ok h' -> h' = h) /\
      (forall order cs,
          timekeeper.Repo_Log E repo h order w' = timekeeper.Ok (cs, None) ->
          exists author rest, cs = (h, msg, author) :: rest).

(** Engine contract: a hard reset to an identifier that is not in the
    history is refused and leaves the repository as it was. *)
Definition reset_rejects_unknown (E : timekeeper.Engine) : Prop :=
  forall w cps w' cs,
    timekeeper.run (timekeeper.LoadCheckpoints E) w
      = (CheckpointsLoadedMsg cps, w', cs) ->
    forall id wt,
      ~ In id (map Checkpoint.Hash cps) ->
      exists e,
        timekeeper.Worktree_Reset E wt (timekeeper.NewHash E id)
          timekeeper.HardReset w = (Some e, w).

End Props.

(** ** The rest of the service: status and initialization *)

Module lifecycle.
Import models tea timekeeper.

(** [git.StatusCode] *)
Module git.
Inductive StatusCode : Type :=
| Unmodified | Untracked | Modified | Added
| Deleted | Renamed | Copied | UpdatedButUnmerged.
End git.

(** What [LoadStatus] and [InitGit] need beyond [Engine]. *)
Record Platform : Type := {
  engine :> Engine;
  (** [git.PlainInit(path, isBare)] *)
  PlainInit : string -> bool -> World engine ->
              res (Repository engine) * World engine;
  (** [ref.Name().Short()] and [ref.Name().IsBranch()] of the reference
      [repo.Head()] returns. *)
  Head_Short : Repository engine -> World engine -> string;
  Head_IsBranch : Repository engine -> World engine -> bool;
  (** [repo.CommitObject(h)]: the commit's [Hash] and [Message]. *)
  Repo_CommitObject : Repository engine -> Hash engine -> World engine ->
                      res (Hash engine * string);
  (** [h.String()[:7]]: a hash prints as forty hexadecimal digits, so
      the slice is in range. *)
  Hash_short7 : Hash engine -> string;
  (** [for file, entry := range status]: the files with their
      [entry.Worktree], in the order the loop meets them. *)
  Status_Files : WorktreeStatus engine -> list (string * git.StatusCode)
}.

(** [err == git.ErrRepositoryNotExists] *)
Definition is_ErrRepositoryNotExists (e : error) : bool :=
  match e with ErrRepositoryNotExists => true | _ => false end.

(** [err == plumbing.ErrReferenceNotFound] *)
Definition is_ErrReferenceNotFound (e : error) : bool :=
  match e with ErrReferenceNotFound => true | _ => false end.

Definition add_Modified (file : string) (s : GitStatus) : GitStatus :=
  {| Branch := Branch s; Staged := Staged s;
     Modified := Modified s ++ [file]; Untracked := Untracked s;
     Ahead := Ahead s; Behind := Behind s; IsClean := IsClean s;
     LastCommit := LastCommit s |}.
Definition add_Staged (file : string) (s : GitStatus) : GitStatus :=
  {| Branch := Branch s; Staged := Staged s ++ [file];
     Modified := Modified s; Untracked := Untracked s;
     Ahead := Ahead s; Behind := Behind s; IsClean := IsClean s;
     LastCommit := LastCommit s |}.
Definition add_Untracked (file : string) (s : GitStatus) : GitStatus :=
  {| Branch := Branch s; Staged := Staged s;
     Modified := Modified s; Untracked := Untracked s ++ [file];
     Ahead := Ahead s; Behind := Behind s; IsClean := IsClean s;
     LastCommit := LastCommit s |}.

(** The body of the loop "Categorize files". *)
Definition categorize_one (gitStatus : GitStatus)
    (entry : string * git.StatusCode) : GitStatus :=
  match snd entry with
  | git.Modified => add_Modified (fst entry) gitStatus
  | git.Added => add_Staged (fst entry) gitStatus
  | git.Untracked => add_Untracked (fst entry) gitStatus
  | _ => gitStatus
  end.

Definition categorize (entries : list (string * git.StatusCode))
    (gitStatus : GitStatus) : GitStatus :=
  fold_left categorize_one entries gitStatus.

(** The [GitStatus] literals of [LoadStatus]: the fields not named are
    zero. *)
Definition newStatus (branch : string) (clean : bool) (lastCommit : string)
    : GitStatus :=
  {| Branch := branch; Staged := []; Modified := []; Untracked := [];
     Ahead := 0; Behind := 0; IsClean := clean; LastCommit := lastCommit |}.

Definition notStarted : string := "Машина времени не запущена в этой папке".

(** [func (s *Service) LoadStatus() tea.Msg].  It only reads, so it is
    a function of the world. *)
Definition LoadStatus (P : Platform) (w : World P) : Msg :=
  match Getwd P w with
  | Fail err => ErrMsg err
  | Ok pwd =>
  match PlainOpen P pwd w with
  | Fail err =>
      if is_ErrRepositoryNotExists err then GitNotInitializedMsg notStarted
      else ErrMsg err
  | Ok repo =>
  match Repo_Worktree P repo w with
  | Fail err => ErrMsg err
  | Ok worktree =>
  match Worktree_Status P worktree w with
  | Fail err => ErrMsg err
  | Ok status =>
  match Repo_Head P repo w with
  | Fail err =>
      if is_ErrReferenceNotFound err then
        GitStatusMsg (newStatus "master" (Status_IsClean P status) "Нет моментов")
      else ErrMsg err
  | Ok hash =>
      let branchName := Head_Short P repo w in
      let branchName :=
        if Head_IsBranch P repo w then Head_Short P repo w else branchName in
      match Repo_CommitObject P repo hash w with
      | Fail err => ErrMsg err
      | Ok commit =>
          let gitStatus :=
            newStatus branchName (Status_IsClean P status)
              (snd commit ++ " " ++ Sprintf_prec7 P (Hash_short7 P (fst commit))) in
          GitStatusMsg (categorize (Status_Files P status) gitStatus)
      end
  end end end end end.

(** [func (s *Service) InitGit() tea.Msg] *)
Definition InitGit (P : Platform) (w : World P) : Msg * World P :=
  match Getwd P w with
  | Fail err => (ErrMsg err, w)
  | Ok pwd =>
      let (r, w') := PlainInit P pwd false w in
      match r with
      | Fail err =>
          (ErrMsg (ErrWrap "не удалось запустить машину времени" err), w')
      | Ok _ => (GitInitializedMsg, w')
      end
  end.

End lifecycle.

(** ** The program: commands performed and their messages fed back *)

Module program.
Import models tea App timekeeper lifecycle.

(** The message a command delivers when it is run, and the world it
    leaves.  [tea.Quit] ends the program and delivers nothing to
    [Update]. *)
Definition perform (P : Platform) (c : Cmd) (w : World P)
    : option (Msg * World P) :=
  match c with
  | Quit => None
  | tea.LoadStatus => Some (lifecycle.LoadStatus P w, w)
  | tea.InitGit => Some (lifecycle.InitGit P w)
  | tea.LoadCheckpoints =>
      Some (fst (run (timekeeper.LoadCheckpoints P) w))
  | tea.SyncWithRemote =>
      Some (fst (run (timekeeper.SyncWithRemote P) w))
  | SendDescriptionMode suggestions => Some (DescriptionModeMsg suggestions, w)
  | tea.CreateCheckpoint description =>
      Some (fst (run (timekeeper.CreateCheckpoint P description) w))
  | tea.RollbackToCheckpoint hash =>
      Some (fst (run (timekeeper.RollbackToCheckpoint P hash) w))
  end.

(** Running a pending command and the commands its message sets off, at
    most [fuel] of them, while no key is pressed.  [None] when a handler
    panics or the fuel runs out with a command still pending. *)
Fixpoint settle (P : Platform) (fuel : nat) (m : Model) (w : World P)
    (pending : option Cmd) : option (Model * World P) :=
  match pending with
  | None => Some (m, w)
  | Some c =>
      match fuel with
      | O => None
      | S fuel' =>
          match perform P c w with
          | None => Some (m, w)
          | Some (msg, w') =>
              match Update msg m with
              | Panic => None
              | Ret m' next => settle P fuel' m' w' next
              end
          end
      end
  end.

(** One key press, followed by everything it sets off. *)
Definition press (P : Platform) (fuel : nat) (k : KeyMsg) (m : Model)
    (w : World P) : option (Model * World P) :=
  match Update (Key k) m with
  | Panic => None
  | Ret m' pending => settle P fuel m' w pending
  end.

(** The start of the program: [Init] returns [LoadStatus]. *)
Definition boot (P : Platform) (w : World P) : option (Model * World P) :=
  settle P 2 initial w (Some tea.LoadStatus).

End program.

(** ** A directory in memory

    A working directory that holds a [memgit] repository or none. *)

Module dirgit.
Import timekeeper lifecycle.

Definition dir : Type := option memgit.repo.

Definition no_repo : error := ErrRepositoryNotExists.

(** The repository [git init] creates: no commit, no remote. *)
Definition empty_repo : memgit.repo :=
  {| memgit.history := []; memgit.dirty := false; memgit.origin := false;
     memgit.add_answer := None; memgit.commit_answer := None;
     memgit.pull_answer := None; memgit.push_answer := None;
     memgit.force_answer := None; memgit.clock := 0 |}.

(** A change of the repository, when there is one. *)
Definition lift {A} (f : memgit.repo -> A * memgit.repo) (absent : A)
    (d : dir) : A * dir :=
  match d with
  | Some r => let (a, r') := f r in (a, Some r')
  | None => (absent, None)
  end.

Definition base : Engine := {|
  World := dir;
  Repository := unit;
  Worktree := unit;
  Remote := unit;
  Hash := string;
  WorktreeStatus := bool * list (string * git.StatusCode);
  Getwd := fun _ => Ok "/work";
  Now := fun d =>
    match d with
    | Some r => (memgit.clock r, Some (memgit.tick r))
    | None => (0, None)
    end;
  Format := fun _ => "2024-05-17 10:30:00";
  Sprintf_prec7 := substring 0 7;
  PlainOpen := fun _ d =>
    match d with Some _ => Ok tt | None => Fail no_repo end;
  Repo_Worktree := fun _ d =>
    match d with Some _ => Ok tt | None => Fail no_repo end;
  Repo_Remote := fun _ name d =>
    match d with
    | Some r => Repo_Remote memgit.engine tt name r
    | None => Fail no_repo
    end;
  Repo_Head := fun _ d =>
    match d with
    | Some r => Repo_Head memgit.engine tt r
    | None => Fail no_repo
    end;
  Repo_Log := fun _ from order d =>
    match d with
    | Some r => Repo_Log memgit.engine tt from order r
    | None => Fail no_repo
    end;
  Worktree_Status := fun _ d =>
    match d with
    | Some r =>
        Ok (negb (memgit.dirty r),
            if memgit.dirty r then [("notes.txt", git.Modified)] else [])
    | None => Fail no_repo
    end;
  Status_IsClean := fun s => fst s;
  Worktree_Add := fun _ path =>
    lift (Worktree_Add memgit.engine tt path) (Fail no_repo);
  Worktree_Commit := fun _ msg opts =>
    lift (Worktree_Commit memgit.engine tt msg opts) (Fail no_repo);
  Worktree_Reset := fun _ h mode =>
    lift (Worktree_Reset memgit.engine tt h mode) (Some no_repo);
  Worktree_Pull := fun _ opts =>
    lift (Worktree_Pull memgit.engine tt opts) (Some no_repo);
  Remote_Push := fun _ opts =>
    lift (Remote_Push memgit.engine tt opts) (Some no_repo);
  NewHash := fun s => s;
  Hash_String := fun h => h
|}.

Definition commit_of (h : string) (r : memgit.repo) : res (string * string) :=
  match memgit.since h (memgit.history r) with
  | Some (c :: _) => Ok (h, snd (fst c))
  | _ => Fail memgit.not_found
  end.

Definition platform : Platform := {|
  engine := base;
  PlainInit := fun _ _ (d : World base) =>
    match d with
    | Some r => (Fail (ErrOther "repository already exists"), Some r)
    | None => (Ok tt, Some empty_repo)
    end;
  Head_Short := fun _ _ => "master";
  Head_IsBranch := fun _ _ => true;
  Repo_CommitObject := fun _ (h : Hash base) (d : World base) =>
    match d with
    | Some r => commit_of h r
    | None => Fail no_repo
    end;
  Hash_short7 := substring 0 7;
  Status_Files := fun (s : WorktreeStatus base) => snd s
|}.

End dirgit.

(** ** Vocabulary of the further properties *)

Module Checks.
Import models tea App.

(** The messages an operation delivers when it completes. *)
Definition is_completion (msg : Msg) : bool :=
  match msg with
  | Key _ | OtherMsg => false
  | _ => true
  end.

(** A key message as the terminal library builds it: a key of type
    [KeyRunes] carries at least one rune. *)
Definition wf_key (k : KeyMsg) : Prop := KType k = KeyRunes -> Runes k <> [].

Definition wf_msg (msg : Msg) : Prop :=
  match msg with Key k => wf_key k | _ => True end.

(** Both selection indices are at least 0. *)
Definition indices_nonneg (m : Model) : Prop :=
  0 <= Selected m /\ 0 <= HistorySelected m.

(** The description used when the draft is empty. *)
Definition defaultDescription : string := "Сейв без описания".

(** The entries of a status whose work-tree code is [code], for the
    three codes the status display lists. *)
Definition has_code (code : lifecycle.git.StatusCode)
    (entry : string * lifecycle.git.StatusCode) : bool :=
  match code, snd entry with
  | lifecycle.git.Modified, lifecycle.git.Modified => true
  | lifecycle.git.Added, lifecycle.git.Added => true
  | lifecycle.git.Untracked, lifecycle.git.Untracked => true
  | _, _ => false
  end.

Definition files_with (code : lifecycle.git.StatusCode)
    (entries : list (string * lifecycle.git.StatusCode)) : list string :=
  map fst (filter (has_code code) entries).

(** A repository whose remote has nothing new and misses nothing. *)
Definition in_step : memgit.repo :=
  {| memgit.history := memgit.history memgit.local_only;
     memgit.dirty := false; memgit.origin := true;
     memgit.add_answer := None; memgit.commit_answer := None;
     memgit.pull_answer := Some NoErrAlreadyUpToDate;
     memgit.push_answer := Some NoErrAlreadyUpToDate;
     memgit.force_answer := None; memgit.clock := 100 |}.

(** A repository whose remote is ahead: the pull brings commits in and
    the push has nothing to send. *)
Definition behind : memgit.repo :=
  {| memgit.history := memgit.history memgit.local_only;
     memgit.dirty := false; memgit.origin := true;
     memgit.add_answer := None; memgit.commit_answer := None;
     memgit.pull_answer := None;
     memgit.push_answer := Some NoErrAlreadyUpToDate;
     memgit.force_answer := None; memgit.clock := 100 |}.

(** The model in description mode with a draft of two letters. *)
Definition drafting : Model :=
  set_DescriptionInput "ab" Props.describing.

End Checks.

(** * The controller *)

Section Controller.
Import models tea App Props.

Lemma start_loading_Loading text m : Loading (start_loading text m) = true.
Proof. reflexivity. Qed.

(** While loading, [handleKeyMsg] returns at its first statement. *)
Lemma handleKeyMsg_loading k m :
  Loading m = true -> handleKeyMsg k m = Ret m None.
Proof. intros H. unfold handleKeyMsg. now rewrite H. Qed.

Lemma feed_app (xs ys : list Msg) (m : Model) :
  feed (xs ++ ys) m =
  match feed xs m with
  | None => None
  | Some (m', cmds) =>
      match feed ys m' with
      | None => None
      | Some (m'', cmds') => Some (m'', (cmds ++ cmds')%list)
      end
  end.
Proof.
  revert m. induction xs as [|x xs IH]; intros m; simpl.
  - destruct (feed ys m) as [[m'' cmds']|]; reflexivity.
  - destruct (Update x m) as [m1 cmd|]; [|reflexivity].
    rewrite IH. destruct (feed xs m1) as [[m' cmds]|]; [|reflexivity].
    destruct (feed ys m') as [[m'' cmds']|]; [|reflexivity].
    destruct cmd; reflexivity.
Qed.

Lemma feed_keys_loading (ks : list KeyMsg) (m : Model) :
  Loading m = true -> feed (map Key ks) m = Some (m, []).
Proof.
  intros H. induction ks as [|k ks IH]; simpl; [reflexivity|].
  rewrite (handleKeyMsg_loading k m H), IH. reflexivity.
Qed.

(** C4, as amended.  While [Loading] is set every key event, the
    force-quit key included, leaves the application state as it is and
    schedules nothing; a burst of keys changes nothing, and the
    completion event of the pending operation is then processed as if
    the keys had not been pressed. *)
Theorem loading_absorbs_every_key (m : Model) (Hloading : Loading m = true) :
  (forall k, Update (Key k) m = Ret m None) /\
  (forall ks, feed (map Key ks) m = Some (m, [])) /\
  (forall ks completion,
      feed (map Key ks ++ [completion]) m = feed [completion] m).
Proof.
  split; [|split].
  - intros k. simpl. now apply handleKeyMsg_loading.
  - intros ks. now apply feed_keys_loading.
  - intros ks completion. rewrite feed_app, (feed_keys_loading ks m Hloading).
    destruct (feed [completion] m) as [[m'' cmds']|]; reflexivity.
Qed.

Lemma loading_absorbs_every_key_witness :
  Loading loading = true /\
  feed (map Key [key_char "r" 114; key_enter; key_ctrl_c]
          ++ [SyncMsg timekeeper.noRemote]) loading
  = feed [SyncMsg timekeeper.noRemote] loading.
Proof.
  split; [reflexivity|].
  apply (loading_absorbs_every_key loading); reflexivity.
Defined.

(** C4, the counterexample.  The claim lets the force-quit key end the
    loop while loading; [ctrl+c] is absorbed like any other key and no
    [tea.Quit] is returned. *)
Lemma force_quit_is_absorbed_while_loading :
  Loading loading = true /\
  Update (Key key_ctrl_c) loading = Ret loading None /\
  ~ (exists m', Update (Key key_ctrl_c) loading = Ret m' (Some Quit)).
Proof.
  split; [reflexivity|]. split; [reflexivity|].
  intros [m' H]. discriminate H.
Qed.

(** *** Selection indices *)








(** *** Hotkeys *)

(** A key that is not the escape key and prints as one of the hotkeys
    reaches the hotkey cases of the main-mode switch. *)
Lemma main_mode_dispatch (m : Model) (k : KeyMsg) :
  Loading m = false -> DescriptionMode m = false -> HistoryMode m = false ->
  KType k <> KeyEscape ->
  let m0 := clearSyncMessage m in
  (KString k = "c" -> Update (Key k) m = handleMenuSelection (set_Selected 0 m0)) /\
  (KString k = "h" -> Update (Key k) m = handleMenuSelection (set_Selected 1 m0)) /\
  (KString k = "r" -> Update (Key k) m = handleMenuSelection (set_Selected 2 m0)) /\
  (KString k = "s" -> Update (Key k) m = handleMenuSelection (set_Selected 3 m0)).
Proof.
  intros Hl Hd Hh Hk m0.
  assert (Hd0 : DescriptionMode m0 = false).
  { unfold m0, clearSyncMessage. destruct (ShowSyncMessage m); assumption. }
  assert (Hh0 : HistoryMode m0 = false).
  { unfold m0, clearSyncMessage. destruct (ShowSyncMessage m); assumption. }
  repeat split; intros Hs; unfold Update, handleKeyMsg; fold m0;
    rewrite Hl, Hd0, Hh0, Hs;
    destruct (KType k); try reflexivity; contradiction.
Qed.

(** C7, as amended.  In main mode, while not loading and on an
    initialized repository, the hotkeys [c], [h], [r] and [s] select
    entry 0, 1, 2 or 3 and start its action: the description prompt,
    the history load (for both history and rollback) or the sync,
    whatever entry was selected before. *)
Theorem hotkeys_jump_to_their_action (m : Model) (k : KeyMsg)
    (Hloading : Loading m = false)
    (Hdescr : DescriptionMode m = false)
    (Hhist : HistoryMode m = false)
    (Hinit : GitNotInitialized m = false)
    (Hkey : KType k <> KeyEscape) :
  let m0 := clearSyncMessage m in
  (KString k = "c" ->
     Update (Key k) m =
     Ret (start_loading "Ловлю вдохновение..." (set_Selected 0 m0))
         (Some (SendDescriptionMode DefaultSuggestions))) /\
  (KString k = "h" ->
     Update (Key k) m =
     Ret (start_loading "Вспоминаем былое..." (set_Selected 1 m0))
         (Some LoadCheckpoints)) /\
  (KString k = "r" ->
     Update (Key k) m =
     Ret (start_loading "Вспоминаем былое..." (set_Selected 2 m0))
         (Some LoadCheckpoints)) /\
  (KString k = "s" ->
     Update (Key k) m =
     Ret (start_loading "Синхронизирую потоки..." (set_Selected 3 m0))
         (Some SyncWithRemote)).
Proof.
  intros m0.
  destruct (main_mode_dispatch m k Hloading Hdescr Hhist Hkey)
    as (Hc & Hh & Hr & Hs).
  assert (Hi0 : GitNotInitialized m0 = false).
  { unfold m0, clearSyncMessage. destruct (ShowSyncMessage m); assumption. }
  repeat split; intros Hstr;
    [rewrite (Hc Hstr) | rewrite (Hh Hstr) | rewrite (Hr Hstr) | rewrite (Hs Hstr)];
    fold m0; unfold handleMenuSelection, Model_GetMenuItems; cbn [GitNotInitialized set_Selected Selected];
    rewrite Hi0; reflexivity.
Qed.

Lemma hotkeys_jump_to_their_action_witness :
  Update (Key (key_char "s" 115)) (set_Selected 1 initial) =
  Ret (start_loading "Синхронизирую потоки..." (set_Selected 3 initial))
      (Some SyncWithRemote).
Proof.
  refine (proj2 (proj2 (proj2
    (hotkeys_jump_to_their_action (set_Selected 1 initial) (key_char "s" 115)
       _ _ _ _ _))) _); try reflexivity.
  discriminate.
Defined.

(** C7, the counterexample.  On an uninitialized repository the menu
    is the single entry "initialize": [s] selects index 3, which is
    outside it, and no sync is started. *)
Lemma sync_hotkey_does_nothing_when_uninitialized :
  Loading uninitialized = false /\
  DescriptionMode uninitialized = false /\
  HistoryMode uninitialized = false /\
  Update (Key (key_char "s" 115)) uninitialized
    = Ret (set_Selected 3 uninitialized) None /\
  ~ (exists m', Update (Key (key_char "s" 115)) uninitialized
                = Ret m' (Some SyncWithRemote)).
Proof.
  repeat split; try reflexivity.
  intros [m' H]. discriminate H.
Qed.

(** On an uninitialized repository [c] selects index 0, which is the
    entry "initialize", and starts the initialization. *)
Remark checkpoint_hotkey_initializes_when_uninitialized :
  Update (Key (key_char "c" 99)) uninitialized
  = Ret (start_loading "Настраиваю пространство..." (set_Selected 0 uninitialized))
        (Some InitGit).
Proof. reflexivity. Qed.

(** *** The description draft *)

(** In description mode a key goes to [handleDescriptionInput], after
    the sync notice, if one is shown, has been cleared. *)
Lemma description_mode_dispatch (m : Model) (k : KeyMsg) :
  Loading m = false -> DescriptionMode m = true ->
  Update (Key k) m = handleDescriptionInput k (clearSyncMessage m).
Proof.
  intros Hl Hd. unfold Update, handleKeyMsg. rewrite Hl.
  replace (DescriptionMode (clearSyncMessage m)) with true; [reflexivity|].
  unfold clearSyncMessage. destruct (ShowSyncMessage m); symmetry; assumption.
Qed.

Lemma index_in_range {A} (xs : list A) (i : Z) :
  0 <= i < len xs -> exists x, index xs i = Some x.
Proof.
  intros [H0 H1]. unfold index, len in *.
  destruct (Z.ltb_spec i 0); [lia|].
  destruct (nth_error xs (Z.to_nat i)) as [x|] eqn:Hn; [now exists x|].
  apply nth_error_None in Hn. lia.
Qed.

(** C10.  In description mode a digit key [1]..[9] either replaces the
    draft by the suggestion at that position or, when there is no such
    suggestion, leaves the whole model as it is; in neither case is the
    digit added to the draft.  Nothing is scheduled. *)
Theorem digit_key_picks_or_is_ignored (m : Model) (k : KeyMsg) (r : rune)
    (Htype : KType k = KeyRunes)
    (Hrunes : Runes k = [r])
    (Hdigit : 49 <= r <= 57) :
  (r - 49 < len (Suggestions m) ->
     exists s, index (Suggestions m) (r - 49) = Some s /\
       handleDescriptionInput k m = Ret (set_DescriptionInput s m) None) /\
  (len (Suggestions m) <= r - 49 ->
     handleDescriptionInput k m = Ret m None) /\
  (Loading m = false -> DescriptionMode m = true -> ShowSyncMessage m = false ->
     Update (Key k) m = handleDescriptionInput k m).
Proof.
  assert (Hd : (49 <=? r) && (r <=? 57) = true).
  { apply andb_true_intro. split; apply Z.leb_le; lia. }
  split; [|split].
  - intros Hlt.
    destruct (index_in_range (Suggestions m) (r - 49)) as [s Hs]; [lia|].
    exists s. split; [assumption|].
    unfold handleDescriptionInput, pickSuggestion. rewrite Hrunes, Hd.
    destruct (Z.ltb_spec (r - 49) (len (Suggestions m))); [|lia].
    rewrite Hs. reflexivity.
  - intros Hge.
    unfold handleDescriptionInput, pickSuggestion. rewrite Hrunes, Hd.
    destruct (Z.ltb_spec (r - 49) (len (Suggestions m))); [lia|].
    rewrite Htype.
    destruct (Z.ltb_spec r 49); [lia|].
    destruct (Z.gtb_spec r 57); [lia|]. reflexivity.
  - intros Hl Hdm Hs. rewrite (description_mode_dispatch m k Hl Hdm).
    unfold clearSyncMessage. rewrite Hs. reflexivity.
Qed.

Lemma digit_key_picks_or_is_ignored_witness :
  Update (Key (key_char "2" 50)) describing
  = Ret (set_DescriptionInput "Фикс на лету 🐛" describing) None.
Proof.
  destruct (digit_key_picks_or_is_ignored describing (key_char "2" 50) 50)
    as (Hpick & _ & Hup); [reflexivity | reflexivity | lia |].
  rewrite Hup by reflexivity.
  destruct Hpick as (s & Hs & Hres); [unfold len; simpl; lia|].
  rewrite Hres. injection Hs as <-. reflexivity.
Defined.

(** The rule is about the keys [1]..[9]: the key [0] selects no
    suggestion and is typed like a letter, and so are runes that arrive
    together in one message whose first rune is not one of [1]..[9]. *)
Remark zero_key_is_typed :
  Update (Key (key_char "0" 48)) describing
  = Ret (set_DescriptionInput "0" describing) None.
Proof. reflexivity. Qed.

Remark runes_arriving_together_are_typed :
  Update (Key (key_runes [97; 49])) describing
  = Ret (set_DescriptionInput "a1" describing) None.
Proof. reflexivity. Qed.

(** In history mode backspace goes back to the main menu. *)
Lemma history_backspace_goes_back (m : Model) :
  Loading m = false -> DescriptionMode m = false -> HistoryMode m = true ->
  Update (Key key_backspace) m = Ret (set_HistoryMode false (clearSyncMessage m)) None.
Proof.
  intros Hl Hd Hh. unfold Update, handleKeyMsg. rewrite Hl.
  unfold clearSyncMessage.
  destruct (ShowSyncMessage m); cbn; rewrite Hd, Hh; reflexivity.
Qed.

(** C9, at the failing input.  Typing the one letter U+044F (two bytes
    in UTF-8) into an empty draft and pressing backspace leaves the
    single byte 0xD1 in the draft: the backspace took one byte, not the
    character that was typed, and the draft is not the text without its
    last character. *)
Theorem backspace_removes_a_byte_not_a_character :
  let typed : list rune := [0x44F] in
  exists m1 m2,
    Update (Key (key_runes typed)) describing = Ret m1 None /\
    DescriptionInput m1 = string_of_runes typed /\
    DescriptionInput m1 = "я" /\
    Update (Key key_backspace) m1 = Ret m2 None /\
    DescriptionInput m2 = bytes [0xD1] /\
    strlen (DescriptionInput m2) = 1 /\
    DescriptionInput m2 <> string_of_runes (removelast typed).
Proof.
  intros typed. do 2 eexists.
  split; [reflexivity|]. split; [reflexivity|]. split; [reflexivity|].
  split; [reflexivity|]. split; [reflexivity|]. split; [reflexivity|].
  discriminate.
Qed.

End Controller.

(** * The synchronization protocol *)

Section Sync.
Import models tea timekeeper Props.
Variable E : Engine.

(** Unfolding one method of the service down to the calls it makes. *)
Ltac unfold_service :=
  unfold run, SyncWithRemote, syncPull, syncPush, CreateCheckpoint,
    LoadCheckpoints, RollbackToCheckpoint, orReturn, orReturn', println,
    bind, read, exec, ret, Return, log, wrap; cbn.

(** Using the answer of the next call. *)
Ltac answer H := rewrite H; cbn.

(** C1, as amended.  When no remote named [origin] is configured the
    sync makes no network call and no call that writes, leaves the
    world as it is, and returns a sync outcome, not an error: pulled
    and pushed are false, the notice is the local-only text, and the
    success flag is false, which is what makes the controller show the
    notice. *)
Theorem sync_without_remote_is_local_only
    (w : World E) (pwd : string) (repo : Repository E) (wt : Worktree E)
    (e : error)
    (Hwd : Getwd E w = Ok pwd)
    (Hopen : PlainOpen E pwd w = Ok repo)
    (Hwt : Repo_Worktree E repo w = Ok wt)
    (Hremote : Repo_Remote E repo "origin" w = Fail e) :
  exists s made,
    run (SyncWithRemote E) w = (SyncMsg s, w, made) /\
    made = [CGetwd; CPlainOpen pwd; CWorktree; CRemote "origin"] /\
    existsb is_network made = false /\
    existsb is_write made = false /\
    SyncMsg.Pulled s = false /\
    SyncMsg.Pushed s = false /\
    SyncMsg.Conflict s = false /\
    SyncMsg.Message s = ErrNoRemote /\
    SyncMsg.Success s = false /\
    (forall m, App.Update (SyncMsg s) m =
       App.Ret (set_ShowSyncMessage true
                  (set_SyncMessage ErrNoRemote (set_Loading false m))) None).
Proof.
  exists noRemote, [CGetwd; CPlainOpen pwd; CWorktree; CRemote "origin"].
  split.
  - unfold_service. answer Hwd. answer Hopen. answer Hwt. answer Hremote.
    reflexivity.
  - repeat split; reflexivity.
Qed.

(** The notice a push adds to the notice of a resolved conflict. *)
Lemma pushNotice_after_conflict (sm : SyncMsg.t) (whenUpToDate suffix : string) :
  SyncMsg.Message sm = ErrConflictsDetected ->
  pushNotice sm whenUpToDate suffix = (ErrConflictsDetected ++ suffix)%string.
Proof. intros H. unfold pushNotice. rewrite H. reflexivity. Qed.

Lemma prefix_app (s t : string) : prefix s (s ++ t) = true.
Proof.
  induction s as [|c s IH]; simpl.
  - destruct t; reflexivity.
  - destruct (ascii_dec c c) as [_|n]; [exact IH | now elim n].
Qed.

(** What the push step returns, whatever the remote answers. *)
Lemma syncPush_cases (remote : Remote E) (sm : SyncMsg.t) (st : State E) :
  let plain := {| PushRemoteName := "origin"; Force := false |} in
  let forced := {| PushRemoteName := "origin"; Force := true |} in
  let made2 := [CPrintln "Pushing to remote..."; CPush plain] in
  let made4 := (made2 ++ [CPrintln "Normal push failed, trying force push...";
                          CPush forced])%list in
  forall perr w1, Remote_Push E remote plain (world st) = (perr, w1) ->
  forall ferr w2, Remote_Push E remote forced w1 = (ferr, w2) ->
  match perr with
  | None =>
      syncPush E remote sm st =
      (inr (SyncMsg (SyncMsg.set_Message
                       (pushNotice sm ErrPushSuccess ", pushed successfully")
                       (SyncMsg.set_Pushed true sm))),
       {| world := w1; calls := calls st ++ made2 |})
  | Some pe =>
      if is_NoErrAlreadyUpToDate pe then
        syncPush E remote sm st =
        (inr (SyncMsg (SyncMsg.set_Pushed false
                         (SyncMsg.set_Message
                            (pushNotice sm ErrAlreadyUpToDate
                                        ", already up to date on push") sm))),
         {| world := w1; calls := calls st ++ made2 |})
      else
        match ferr with
        | None =>
            syncPush E remote sm st =
            (inr (SyncMsg (SyncMsg.set_Message
                             (pushNotice sm ErrForcePushSuccess
                                         ", force pushed successfully")
                             (SyncMsg.set_Pushed true sm))),
             {| world := w2; calls := calls st ++ made4 |})
        | Some fe =>
            syncPush E remote sm st =
            (inl (ErrMsg (ErrWrap ErrFailedToPush fe)),
             {| world := w2; calls := calls st ++ made4 |})
        end
  end.
Proof.
  intros plain forced made2 made4 perr w1 Hp ferr w2 Hf.
  unfold made4, made2, plain, forced in *.
  unfold syncPush, orReturn', println, bind, read, exec, ret, Return, log, wrap.
  cbn. rewrite Hp.
  destruct perr as [pe|]; cbn.
  - destruct (is_NoErrAlreadyUpToDate pe); cbn.
    + rewrite <- app_assoc. reflexivity.
    + rewrite Hf. destruct ferr as [fe|]; cbn;
        repeat rewrite <- app_assoc; reflexivity.
  - rewrite <- app_assoc. reflexivity.
Qed.


Lemma run_returned (body : M E Msg) (w : World E) :
  run body w =
  (returned (body {| world := w; calls := [] |}),
   world (snd (body {| world := w; calls := [] |})),
   calls (snd (body {| world := w; calls := [] |}))).
Proof.
  unfold run, returned.
  destruct (body {| world := w; calls := [] |}) as [[msg|msg] st]; reflexivity.
Qed.

(** After a resolved conflict the push step keeps the conflict flag
    and extends the conflict notice, or fails on the forced push. *)
Lemma syncPush_after_conflict (remote : Remote E) (sm : SyncMsg.t) (st : State E) :
  SyncMsg.Message sm = ErrConflictsDetected ->
  SyncMsg.Conflict sm = true -> SyncMsg.Success sm = true ->
  (forall s, returned (syncPush E remote sm st) = SyncMsg s ->
     SyncMsg.Conflict s = true /\ SyncMsg.Success s = true /\
     prefix ErrConflictsDetected (SyncMsg.Message s) = true) /\
  (forall e, returned (syncPush E remote sm st) = ErrMsg e ->
     exists fe, e = ErrWrap ErrFailedToPush fe).
Proof.
  intros Hm Hc Hs.
  destruct (Remote_Push E remote {| PushRemoteName := "origin"; Force := false |}
              (world st)) as [perr w1] eqn:Hp.
  destruct (Remote_Push E remote {| PushRemoteName := "origin"; Force := true |}
              w1) as [ferr w2] eqn:Hf.
  pose proof (syncPush_cases remote sm st perr w1 Hp ferr w2 Hf) as H.
  cbn beta iota zeta in H.
  assert (Hpre : forall a b,
             prefix ErrConflictsDetected (pushNotice sm a b) = true).
  { intros a b. rewrite (pushNotice_after_conflict sm a b Hm). apply prefix_app. }
  assert (Hok : forall s0 s,
             SyncMsg.Conflict s0 = true -> SyncMsg.Success s0 = true ->
             prefix ErrConflictsDetected (SyncMsg.Message s0) = true ->
             SyncMsg s0 = SyncMsg s ->
             SyncMsg.Conflict s = true /\ SyncMsg.Success s = true /\
             prefix ErrConflictsDetected (SyncMsg.Message s) = true).
  { intros s0 s H1 H2 H3 Heq. injection Heq as <-. auto. }
  destruct perr as [pe|]; [destruct (is_NoErrAlreadyUpToDate pe);
                           [|destruct ferr as [fe|]]|];
    rewrite H; unfold returned; cbn [fst]; split.
  - intros s. apply Hok; cbn; auto.
  - intros e Hr. discriminate Hr.
  - intros s Hr. discriminate Hr.
  - intros e Hr. injection Hr as <-. now exists fe.
  - intros s. apply Hok; cbn; auto.
  - intros e Hr. discriminate Hr.
  - intros s. apply Hok; cbn; auto.
  - intros e Hr. discriminate Hr.
Qed.

(** C2.  When the pull fails for a reason other than "already up to
    date" and the status computed afterwards is not clean, the sync
    stages everything and commits under the conflict-resolution
    identity with a message that carries the timestamp.  A failure of
    the staging or of the commit is returned as an error.  Otherwise the
    sync goes on to the push with the conflict flag set and the
    "conflicts auto-resolved" notice, which every outcome then carries;
    the pull error itself is never returned. *)
Theorem conflict_is_committed_and_reported
    (w : World E) (pwd : string) (repo : Repository E) (wt : Worktree E)
    (remote : Remote E)
    (pullErr : error) (w1 : World E) (status : WorktreeStatus E)
    (added : res (Hash E)) (w2 : World E)
    (t1 : Time) (w3 : World E) (t2 : Time) (w4 : World E)
    (committed : res (Hash E)) (w5 : World E)
    (Hwd : Getwd E w = Ok pwd)
    (Hopen : PlainOpen E pwd w = Ok repo)
    (Hwt : Repo_Worktree E repo w = Ok wt)
    (Hremote : Repo_Remote E repo "origin" w = Ok remote)
    (Hpull : Worktree_Pull E wt {| PullRemoteName := "origin" |} w
             = (Some pullErr, w1))
    (Hconflict : is_NoErrAlreadyUpToDate pullErr = false)
    (Hstatus : Worktree_Status E wt w1 = Ok status)
    (Hdirty : Status_IsClean E status = false)
    (Hadd : Worktree_Add E wt "." w1 = (added, w2))
    (Hnow1 : Now E w2 = (t1, w3))
    (Hnow2 : Now E w3 = (t2, w4))
    (Hcommit :
       Worktree_Commit E wt ("Auto-resolve conflicts: " ++ Format E t1)
         {| Author := {| Name := ConflictAuthorName;
                         Email := ConflictAuthorEmail; When := t2 |} |} w4
       = (committed, w5)) :
  let staged : list (Call E) :=
    [CGetwd; CPlainOpen pwd; CWorktree; CRemote "origin";
     CPrintln "Pulling from remote...";
     CPull {| PullRemoteName := "origin" |};
     CPrintln "Conflicts detected, forcing local changes...";
     CStatus; CAdd "."] in
  let resolved : list (Call E) :=
    (staged ++
     [CNow; CNow;
      CCommit ("Auto-resolve conflicts: " ++ Format E t1)
        {| Author := {| Name := ConflictAuthorName;
                        Email := ConflictAuthorEmail; When := t2 |} |}])%list in
  let syncMsg :=
    {| SyncMsg.Success := true; SyncMsg.Message := ErrConflictsDetected;
       SyncMsg.Pulled := false; SyncMsg.Pushed := false;
       SyncMsg.Conflict := true |} in
  match added, committed with
  | Fail e, _ =>
      run (SyncWithRemote E) w
      = (ErrMsg (ErrWrap ErrFailedToAddChanges e), w2, staged)
  | Ok _, Fail e =>
      run (SyncWithRemote E) w
      = (ErrMsg (ErrWrap ErrFailedToCommit e), w5, resolved)
  | Ok _, Ok _ =>
      SyncWithRemote E {| world := w; calls := [] |}
      = syncPush E remote syncMsg {| world := w5; calls := resolved |} /\
      (forall s w' made,
          run (SyncWithRemote E) w = (SyncMsg s, w', made) ->
          SyncMsg.Conflict s = true /\ SyncMsg.Success s = true /\
          prefix ErrConflictsDetected (SyncMsg.Message s) = true) /\
      (forall e w' made,
          run (SyncWithRemote E) w = (ErrMsg e, w', made) ->
          exists fe, e = ErrWrap ErrFailedToPush fe)
  end.
Proof.
  intros staged resolved syncMsg.
  assert (Hbody :
    SyncWithRemote E {| world := w; calls := [] |} =
    match added, committed with
    | Fail e, _ =>
        (inl (ErrMsg (ErrWrap ErrFailedToAddChanges e)),
         {| world := w2; calls := staged |})
    | Ok _, Fail e =>
        (inl (ErrMsg (ErrWrap ErrFailedToCommit e)),
         {| world := w5; calls := resolved |})
    | Ok _, Ok _ =>
        syncPush E remote syncMsg {| world := w5; calls := resolved |}
    end).
  { unfold SyncWithRemote, syncPull, orReturn, println, bind, read, exec,
      ret, Return, log, wrap. cbn.
    answer Hwd. answer Hopen. answer Hwt. answer Hremote. answer Hpull.
    answer Hconflict. answer Hstatus. answer Hdirty. answer Hadd.
    destruct added as [h|e]; cbn; [|reflexivity].
    answer Hnow1. answer Hnow2. cbn in Hcommit. answer Hcommit.
    destruct committed as [h'|e]; cbn; reflexivity. }
  destruct added as [h|e]; [destruct committed as [h'|e]|].
  - split; [exact Hbody|].
    destruct (syncPush_after_conflict remote syncMsg
                {| world := w5; calls := resolved |}) as [Hs He];
      try reflexivity.
    rewrite run_returned, Hbody.
    split.
    + intros s w' made Hr. apply Hs. congruence.
    + intros e w' made Hr. apply He. congruence.
  - unfold run. rewrite Hbody. reflexivity.
  - unfold run. rewrite Hbody. reflexivity.
Qed.

(** Branching on the answer of the next call of the engine. *)
Ltac engine_case :=
  match goal with
  | |- context [PlainOpen E ?a ?b] => destruct (PlainOpen E a b) eqn:?
  | |- context [Repo_Worktree E ?a ?b] => destruct (Repo_Worktree E a b) eqn:?
  | |- context [Repo_Remote E ?a ?b ?c] => destruct (Repo_Remote E a b c) eqn:?
  | |- context [Worktree_Pull E ?a ?b ?c] =>
      destruct (Worktree_Pull E a b c) as [[?|] ?] eqn:?
  | |- context [is_NoErrAlreadyUpToDate ?a] =>
      destruct (is_NoErrAlreadyUpToDate a) eqn:?
  | |- context [Worktree_Status E ?a ?b] =>
      destruct (Worktree_Status E a b) eqn:?
  | |- context [Status_IsClean E ?a] => destruct (Status_IsClean E a) eqn:?
  | |- context [Worktree_Add E ?a ?b ?c] =>
      destruct (Worktree_Add E a b c) as [[?|?] ?] eqn:?
  | |- context [Now E ?a] => destruct (Now E a) as [? ?] eqn:?
  | |- context [Worktree_Commit E ?a ?b ?c ?d] =>
      destruct (Worktree_Commit E a b c d) as [[?|?] ?] eqn:?
  | |- context [Remote_Push E ?a ?b ?c] =>
      destruct (Remote_Push E a b c) as [[?|] ?] eqn:?
  end; cbn.

(** Every error a sync returns: the error of [os.Getwd] as it is, or
    the error of one of six calls under the text that names the call. *)
Lemma sync_error_causes (w w' : World E) (e : error) (made : list (Call E)) :
  run (SyncWithRemote E) w = (ErrMsg e, w', made) ->
  Getwd E w = Fail e \/
  exists prefix cause,
    e = ErrWrap prefix cause /\
    In prefix [ErrFailedToOpenRepo; ErrFailedToGetWorktree;
               ErrFailedToGetStatus; ErrFailedToAddChanges;
               ErrFailedToCommit; ErrFailedToPush].
Proof.
  unfold run, SyncWithRemote, syncPull, syncPush, orReturn, orReturn', println,
    bind, read, exec, ret, Return, log, wrap. cbn.
  destruct (Getwd E w) as [pwd|e0] eqn:Hwd; cbn.
  2:{ intros H. inversion H; subst. now left. }
  intros H. right. revert H.
  repeat engine_case;
    intros H; try discriminate H; inversion H; subst;
    do 2 eexists; (split; [reflexivity|]); cbn; tauto.
Qed.

End Sync.

(** ** The protocol run on the engine in memory *)

Section SyncRuns.
Import models tea timekeeper Props.

(** A diverged remote and a dirty work tree: the conflict is committed
    under the conflict identity, the plain push is rejected and the
    forced push goes through. *)
Example sync_of_diverged_repository :
  run (SyncWithRemote memgit.engine) memgit.diverged =
  (SyncMsg {| SyncMsg.Success := true;
              SyncMsg.Message :=
                "Конфликты решены автоматически, force pushed successfully";
              SyncMsg.Pulled := false; SyncMsg.Pushed := true;
              SyncMsg.Conflict := true |},
   memgit.resolved,
   [CGetwd; CPlainOpen "/work"; CWorktree; CRemote "origin";
    CPrintln "Pulling from remote...";
    CPull {| PullRemoteName := "origin" |};
    CPrintln "Conflicts detected, forcing local changes...";
    CStatus; CAdd "."; CNow; CNow;
    CCommit "Auto-resolve conflicts: 2024-05-17 10:30:00"
      {| Author := {| Name := ConflictAuthorName;
                      Email := ConflictAuthorEmail; When := 101 |} |};
    CPrintln "Pushing to remote..."; CPush memgit.plain;
    CPrintln "Normal push failed, trying force push..."; CPush memgit.forced]).
Proof. reflexivity. Qed.

Lemma sync_without_remote_is_local_only_witness :
  exists s made,
    run (SyncWithRemote memgit.engine) memgit.local_only
      = (SyncMsg s, memgit.local_only, made) /\
    made = [CGetwd; CPlainOpen "/work"; CWorktree; CRemote "origin"] /\
    existsb is_network made = false /\
    existsb is_write made = false /\
    SyncMsg.Pulled s = false /\
    SyncMsg.Pushed s = false /\
    SyncMsg.Conflict s = false /\
    SyncMsg.Message s = ErrNoRemote /\
    SyncMsg.Success s = false /\
    (forall m, App.Update (SyncMsg s) m =
       App.Ret (set_ShowSyncMessage true
                  (set_SyncMessage ErrNoRemote (set_Loading false m))) None).
Proof.
  apply (sync_without_remote_is_local_only memgit.engine memgit.local_only
           "/work" tt tt (ErrOther "remote not found"));
    reflexivity.
Defined.

(** C1, the counterexample.  The claim gives the outcome of a sync
    without a remote a success flag that is true; the outcome the sync
    returns there has [Success: false]. *)
Lemma sync_without_remote_has_success_false :
  run (SyncWithRemote memgit.engine) memgit.local_only
    = (SyncMsg noRemote, memgit.local_only,
       [CGetwd; CPlainOpen "/work"; CWorktree; CRemote "origin"]) /\
  SyncMsg.Success noRemote = false /\
  ~ (exists s w made,
        run (SyncWithRemote memgit.engine) memgit.local_only
          = (SyncMsg s, w, made) /\
        SyncMsg.Success s = true).
Proof.
  split; [reflexivity|]. split; [reflexivity|].
  intros (s & w & made & Hrun & Hs).
  injection Hrun as <- _ _. discriminate Hs.
Qed.

Lemma conflict_is_committed_and_reported_witness :
  SyncWithRemote memgit.engine (memgit.state memgit.diverged [])
  = syncPush memgit.engine tt
      {| SyncMsg.Success := true; SyncMsg.Message := ErrConflictsDetected;
         SyncMsg.Pulled := false; SyncMsg.Pushed := false;
         SyncMsg.Conflict := true |}
      (memgit.state memgit.resolved
         [CGetwd; CPlainOpen "/work"; CWorktree; CRemote "origin";
          CPrintln "Pulling from remote...";
          CPull {| PullRemoteName := "origin" |};
          CPrintln "Conflicts detected, forcing local changes...";
          CStatus; CAdd "."; CNow; CNow;
          CCommit "Auto-resolve conflicts: 2024-05-17 10:30:00"
            {| Author := {| Name := ConflictAuthorName;
                            Email := ConflictAuthorEmail; When := 101 |} |}]).
Proof.
  exact (proj1
    (conflict_is_committed_and_reported memgit.engine memgit.diverged
       "/work" tt tt tt (ErrOther "non-fast-forward update") memgit.diverged
       false (Ok "") memgit.diverged
       100 (memgit.tick memgit.diverged)
       101 (memgit.tick (memgit.tick memgit.diverged))
       (Ok "cc") memgit.resolved
       eq_refl eq_refl eq_refl eq_refl eq_refl eq_refl eq_refl eq_refl
       eq_refl eq_refl eq_refl eq_refl)).
Defined.



End SyncRuns.

(** * Checkpoints, history and rollback *)

Section Gateway.
Import models tea timekeeper Props.
Variable E : Engine.

(** What a successful history load has read. *)
Lemma LoadCheckpoints_loaded (w w' : World E) (cps : list Checkpoint.t)
    (made : list (Call E)) :
  run (LoadCheckpoints E) w = (CheckpointsLoadedMsg cps, w', made) ->
  exists pwd repo head commits,
    Getwd E w = Ok pwd /\
    PlainOpen E pwd w = Ok repo /\
    Repo_Head E repo w = Ok head /\
    Repo_Log E repo head LogOrderCommitterTime w = Ok (commits, None) /\
    cps = map (toCheckpoint E (Hash_String E head)) commits /\
    w' = w.
Proof.
  unfold run, LoadCheckpoints, orReturn, bind, read, ret, Return, log. cbn.
  destruct (Getwd E w) as [pwd|e] eqn:Hwd; cbn; [|discriminate].
  destruct (PlainOpen E pwd w) as [repo|e] eqn:Hopen; cbn; [|discriminate].
  destruct (Repo_Head E repo w) as [head|e] eqn:Hhead; cbn; [|discriminate].
  destruct (Repo_Log E repo head LogOrderCommitterTime w)
    as [[commits [err|]]|e] eqn:Hlog; cbn; try discriminate.
  intros H. injection H as <- <- _.
  exists pwd, repo, head, commits. repeat split; auto.
Qed.

(** A checkpoint is reported as created only after a successful commit
    of the description, and the commit is the last change of the world. *)
Lemma CreateCheckpoint_created (description : string) (w w' : World E)
    (success : bool) (text : string) (made : list (Call E)) :
  run (CreateCheckpoint E description) w
    = (CheckpointCreatedMsg success text, w', made) ->
  exists wt opts w0 h,
    Worktree_Commit E wt description opts w0 = (Ok h, w') /\
    Name (Author opts) = CheckpointAuthorName.
Proof.
  unfold run, CreateCheckpoint, orReturn, bind, read, exec, ret, Return, log,
    wrap. cbn.
  destruct (Getwd E w) as [pwd|e]; cbn; [|discriminate].
  destruct (PlainOpen E pwd w) as [repo|e]; cbn; [|discriminate].
  destruct (Repo_Worktree E repo w) as [wt|e]; cbn; [|discriminate].
  destruct (Worktree_Add E wt "." w) as [[a|e] w1]; cbn; [|discriminate].
  destruct (Now E w1) as [now w2]; cbn.
  match goal with
  | |- context [Worktree_Commit E wt description ?o w2] =>
      destruct (Worktree_Commit E wt description o w2) as [[h|e] w3] eqn:Hc;
      cbn; [|discriminate];
      intros H; injection H as _ _ <- _; exists wt, o, w2, h; auto
  end.
Qed.

(** C6.  On an engine where a successful commit becomes the head of
    the log with the message it was given: when a checkpoint has been
    created with a message and the history is loaded right after, the
    first checkpoint of the list is the current one and carries that
    message. *)
Theorem checkpoint_then_history
    (Hengine : commit_is_head_of_log E)
    (msg : string) (w w1 w2 : World E) (text : string)
    (made1 made2 : list (Call E)) (cps : list Checkpoint.t)
    (Hcreate : run (CreateCheckpoint E msg) w
               = (CheckpointCreatedMsg true text, w1, made1))
    (Hload : run (LoadCheckpoints E) w1 = (CheckpointsLoadedMsg cps, w2, made2)) :
  exists first rest,
    cps = first :: rest /\
    Checkpoint.IsCurrent first = true /\
    Checkpoint.Message first = msg.
Proof.
  destruct (CreateCheckpoint_created _ _ _ _ _ _ Hcreate)
    as (wt & opts & w0 & h & Hcommit & _).
  destruct (LoadCheckpoints_loaded _ _ _ _ Hload)
    as (pwd & repo & head & commits & _ & _ & Hhead & Hlog & Hcps & _).
  destruct (Hengine wt msg opts w0 h w1 Hcommit repo) as [Hh Hl].
  rewrite (Hh head Hhead) in *.
  destruct (Hl LogOrderCommitterTime commits Hlog) as (author & rest & ->).
  subst cps. cbn [map].
  eexists. eexists. split; [reflexivity|].
  cbn. split; [apply String.eqb_refl | reflexivity].
Qed.

(** C8.  On an engine that refuses a hard reset to an identifier
    outside the history and leaves the repository as it was: a rollback
    to such an identifier returns the failure message that names the
    rollback, makes no other call that writes, and leaves the world,
    and so the work tree and the head, unchanged. *)
Theorem rollback_to_unknown_fails
    (Hengine : reset_rejects_unknown E)
    (id : string) (w w0 : World E) (cps : list Checkpoint.t)
    (made0 : list (Call E)) (repo : Repository E) (wt : Worktree E)
    (pwd : string)
    (Hhistory : run (LoadCheckpoints E) w = (CheckpointsLoadedMsg cps, w0, made0))
    (Habsent : ~ In id (map Checkpoint.Hash cps))
    (Hwd : Getwd E w = Ok pwd)
    (Hopen : PlainOpen E pwd w = Ok repo)
    (Hwt : Repo_Worktree E repo w = Ok wt) :
  exists e,
    run (RollbackToCheckpoint E id) w
    = (RollbackMsg false ("Не удалось перемотать: " ++ Error e), w,
       [CGetwd; CPlainOpen pwd; CWorktree; CReset (NewHash E id) HardReset]) /\
    (forall m, App.Update (RollbackMsg false
                             ("Не удалось перемотать: " ++ Error e)) m
               = App.Ret (set_HistoryMode false (set_Loading false m)) None).
Proof.
  destruct (Hengine w cps w0 made0 Hhistory id wt Habsent) as [e He].
  exists e. split; [|reflexivity].
  unfold run, RollbackToCheckpoint, orReturn, bind, read, exec, ret, Return, log.
  cbn. rewrite Hwd. cbn. rewrite Hopen. cbn. rewrite Hwt. cbn.
  rewrite He. cbn. reflexivity.
Qed.

End Gateway.

(** ** The contracts on the engine in memory *)

Section MemgitContracts.
Import models tea timekeeper Props.

Lemma since_found (h : string) (cs : list memgit.commit) (found : list memgit.commit) :
  memgit.since h cs = Some found -> In h (map memgit.commit_hash cs).
Proof.
  induction cs as [|c cs IH]; simpl; [discriminate|].
  destruct (String.eqb_spec (memgit.commit_hash c) h) as [Heq|Hne].
  - intros _. left. exact Heq.
  - intros H. right. exact (IH H).
Qed.

Lemma memgit_commit_is_head_of_log : commit_is_head_of_log memgit.engine.
Proof.
  intros wt msg opts w h w' Hcommit repo. cbn in Hcommit.
  destruct (memgit.commit_answer w) as [e|]; [discriminate|].
  injection Hcommit as <- <-. split.
  - intros h' Hhead. cbn in Hhead. now injection Hhead as <-.
  - intros order cs Hlog. cbn in Hlog.
    unfold memgit.commit_hash in Hlog. cbn in Hlog.
    rewrite String.eqb_refl in Hlog. injection Hlog as <-.
    eexists. eexists. reflexivity.
Qed.

Lemma memgit_history_hashes (w w' : memgit.repo) (cps : list Checkpoint.t)
    (made : list (Call memgit.engine)) :
  run (LoadCheckpoints memgit.engine) w = (CheckpointsLoadedMsg cps, w', made) ->
  map Checkpoint.Hash cps = map memgit.commit_hash (memgit.history w).
Proof.
  intros H.
  destruct (LoadCheckpoints_loaded memgit.engine _ _ _ _ H)
    as (pwd & repo & head & commits & _ & _ & Hhead & Hlog & -> & _).
  cbn in Hhead, Hlog.
  destruct (memgit.history w) as [|c rest]; [discriminate|].
  injection Hhead as <-. cbn in Hlog. rewrite String.eqb_refl in Hlog.
  injection Hlog as <-.
  rewrite map_map. apply map_ext. intros [[h m] a]. reflexivity.
Qed.

Lemma memgit_reset_rejects_unknown : reset_rejects_unknown memgit.engine.
Proof.
  intros w cps w' made Hload id wt Habsent.
  rewrite (memgit_history_hashes _ _ _ _ Hload) in Habsent.
  exists memgit.not_found. cbn.
  destruct (memgit.since id (memgit.history w)) as [found|] eqn:Hs;
    [|reflexivity].
  elim Habsent. exact (since_found _ _ _ Hs).
Qed.

(** Creating a checkpoint and loading the history, as they run. *)
Example checkpoint_then_history_run :
  exists w1 made1,
    run (CreateCheckpoint memgit.engine "Вайб чек") memgit.local_only
      = (CheckpointCreatedMsg true "Момент зафиксирован: cc", w1, made1) /\
    run (LoadCheckpoints memgit.engine) w1
      = (CheckpointsLoadedMsg
           [ {| Checkpoint.Hash := "cc"; Checkpoint.Message := "Вайб чек";
                Checkpoint.Author := CheckpointAuthorName;
                Checkpoint.Date := 100; Checkpoint.IsCurrent := true |};
             {| Checkpoint.Hash := "c"; Checkpoint.Message := "first";
                Checkpoint.Author := "me";
                Checkpoint.Date := 0; Checkpoint.IsCurrent := false |} ],
         w1, [CGetwd; CPlainOpen "/work"; CHead; CLog (E := memgit.engine) "cc" LogOrderCommitterTime]).
Proof. do 2 eexists. split; reflexivity. Qed.

Lemma checkpoint_then_history_witness :
  exists first rest,
    [ {| Checkpoint.Hash := "cc"; Checkpoint.Message := "Вайб чек";
         Checkpoint.Author := CheckpointAuthorName;
         Checkpoint.Date := 100; Checkpoint.IsCurrent := true |};
      {| Checkpoint.Hash := "c"; Checkpoint.Message := "first";
         Checkpoint.Author := "me";
         Checkpoint.Date := 0; Checkpoint.IsCurrent := false |} ]
    = first :: rest /\
    Checkpoint.IsCurrent first = true /\
    Checkpoint.Message first = "Вайб чек".
Proof.
  eapply (checkpoint_then_history memgit.engine memgit_commit_is_head_of_log
            "Вайб чек" memgit.local_only);
    reflexivity.
Defined.

Lemma rollback_to_unknown_fails_witness :
  exists e,
    run (RollbackToCheckpoint memgit.engine "deadbeef") memgit.diverged
    = (RollbackMsg false ("Не удалось перемотать: " ++ Error e), memgit.diverged,
       [CGetwd; CPlainOpen "/work"; CWorktree; CReset (E := memgit.engine) "deadbeef" HardReset]) /\
    (forall m, App.Update (RollbackMsg false
                             ("Не удалось перемотать: " ++ Error e)) m
               = App.Ret (set_HistoryMode false (set_Loading false m)) None).
Proof.
  eapply (rollback_to_unknown_fails memgit.engine memgit_reset_rejects_unknown
            "deadbeef" memgit.diverged _ _ _ tt tt "/work").
  - reflexivity.
  - cbn. intros [H|[]]. discriminate H.
  - reflexivity.
  - reflexivity.
  - reflexivity.
Defined.

End MemgitContracts.

(** * The controller, further properties *)

Section ControllerMore.
Import models tea App Props Checks.

(** Splitting on the tests a handler makes, one after the other. *)
Ltac split_tests H :=
  repeat match type of H with
    | context [match ?x with _ => _ end] =>
        match x with
        | context [match _ with _ => _ end] => fail 1
        | _ => destruct x eqn:?; cbn in H
        end
    end.

(** Turning the comparisons met on the way into inequalities. *)
Ltac to_props :=
  repeat match goal with
    | H : (_ >? _) = true |- _ => apply Z.gtb_lt in H
    | H : (_ >? _) = false |- _ => rewrite Z.gtb_ltb in H; apply Z.ltb_ge in H
    | H : (_ <? _) = true |- _ => apply Z.ltb_lt in H
    | H : (_ <? _) = false |- _ => apply Z.ltb_ge in H
    | H : (_ >=? _) = true |- _ => rewrite Z.geb_leb in H; apply Z.leb_le in H
    | H : (_ >=? _) = false |- _ => rewrite Z.geb_leb in H; apply Z.leb_gt in H
    | H : (_ <=? _) = true |- _ => apply Z.leb_le in H
    | H : (_ <=? _) = false |- _ => apply Z.leb_gt in H
    | H : (_ && _) = true |- _ => apply andb_prop in H; destruct H
    end.

(** A completion message, step by step. *)
Lemma completion_step (msg : Msg) (m : Model)
    (Hmsg : is_completion msg = true) :
  exists m' next,
    Update msg m = Ret m' next /\
    Loading m' = false /\
    (next = None \/ next = Some LoadStatus) /\
    Quitting m' = Quitting m /\
    Selected m' = Selected m.
Proof.
  destruct msg; try discriminate Hmsg; cbn;
    repeat match goal with
      | |- context [if ?b then _ else _] => destruct b
      end;
    do 2 eexists; (split; [reflexivity|]); cbn; auto.
Qed.

(** X1.  Every message that reports the end of an operation is
    handled without a panic, clears [Loading], and schedules nothing
    but a status refresh; it never quits and never moves the menu
    selection. *)
Theorem completion_clears_loading (msg : Msg) (m : Model)
    (Hmsg : is_completion msg = true) :
  exists m' next,
    Update msg m = Ret m' next /\
    Loading m' = false /\
    (next = None \/ next = Some LoadStatus) /\
    Quitting m' = Quitting m /\
    Selected m' = Selected m.
Proof.
  destruct msg; try discriminate Hmsg; cbn;
    repeat match goal with
      | |- context [if ?b then _ else _] => destruct b
      end;
    do 2 eexists; (split; [reflexivity|]); cbn; auto.
Qed.

Lemma completion_clears_loading_witness :
  exists m' next,
    Update (RollbackMsg true "ok") loading = Ret m' next /\
    Loading m' = false /\
    (next = None \/ next = Some LoadStatus) /\
    Quitting m' = Quitting loading /\
    Selected m' = Selected loading.
Proof.
  apply (completion_clears_loading (RollbackMsg true "ok") loading).
  reflexivity.
Defined.



Lemma index_some {A} (xs : list A) (i : Z) :
  0 <= i -> i < len xs -> index xs i <> None.
Proof.
  intros H0 H1 Hn. destruct (index_in_range xs i) as [x Hx]; [lia|].
  congruence.
Qed.

(** One message: no panic, and the indices stay at least 0. *)
Lemma update_step_safe (msg : Msg) (m : Model)
    (Hkey : wf_msg msg) (Hidx : indices_nonneg m) :
  exists m' next, Update msg m = Ret m' next /\ indices_nonneg m'.
Proof.
  destruct (Update msg m) as [m' next|] eqn:Hstep.
  - exists m', next. split; [reflexivity|].
    destruct m as [st er sel qu cps hm hsel ld lt sm ssm gni dm di sg].
    unfold indices_nonneg in *. cbn in Hidx.
    destruct msg as [s|e|t| |b t|l|b t|l|t|s|k|]; cbn in Hstep;
      try (inversion Hstep; subst; cbn; lia).
    + destruct (SyncMsg.Success s); inversion Hstep; subst; cbn; lia.
    + destruct k as [kt rs ks].
      unfold handleKeyMsg, clearSyncMessage, handleDescriptionInput,
        handleHistoryInput, handleMenuSelection, Model_GetMenuItems,
        pickSuggestion, quit, start_loading in Hstep.
      cbn in Hstep.
      split_tests Hstep; try discriminate Hstep;
        inversion Hstep; subst; cbn in *; to_props; lia.
  - exfalso.
    destruct m as [st er sel qu cps hm hsel ld lt sm ssm gni dm di sg].
    unfold indices_nonneg in Hidx. cbn in Hidx.
    destruct msg as [s|e|t| |b t|l|b t|l|t|s|k|]; cbn in Hstep;
      try discriminate Hstep.
    + destruct (SyncMsg.Success s); discriminate Hstep.
    + destruct k as [kt rs ks]. unfold wf_msg, wf_key in Hkey. cbn in Hkey.
      unfold handleKeyMsg, clearSyncMessage, handleDescriptionInput,
        handleHistoryInput, handleMenuSelection, Model_GetMenuItems,
        pickSuggestion, quit, start_loading in Hstep.
      cbn in Hstep.
      split_tests Hstep; try discriminate Hstep;
        try (now apply Hkey);
        cbn in *; to_props;
        try match goal with
        | H : index ?xs ?i = None |- _ =>
            apply (index_some xs i); [lia | cbn in *; lia | exact H]
        end.
Qed.

(** X3.  As long as both selection indices are at least 0 at the
    start, no sequence of messages makes a handler panic, whatever the
    modes, the lists and the keys on the way: the event loop processes
    all of them, and the indices are at least 0 at the end. *)
Theorem event_loop_never_panics (msgs : list Msg) (m : Model)
    (Hwf : Forall wf_msg msgs) (Hidx : indices_nonneg m) :
  exists m' cmds, feed msgs m = Some (m', cmds) /\ indices_nonneg m'.
Proof.
  revert m Hidx. induction Hwf as [|msg msgs Hmsg _ IH]; intros m Hidx.
  - exists m, []. split; [reflexivity | assumption].
  - destruct (update_step_safe msg m Hmsg Hidx) as (m1 & next & Hstep & Hidx1).
    destruct (IH m1 Hidx1) as (m' & cmds & Hfeed & Hidx').
    cbn [feed]. rewrite Hstep, Hfeed. eexists. eexists.
    split; [reflexivity | assumption].
Qed.

Lemma event_loop_never_panics_witness :
  exists m' cmds,
    feed [Key key_down; Key (key_char "x" 120); Key (key_char " " 32)] browsing
      = Some (m', cmds) /\
    indices_nonneg m'.
Proof.
  apply (event_loop_never_panics
           [Key key_down; Key (key_char "x" 120); Key (key_char " " 32)]
           browsing).
  - repeat (apply Forall_cons;
            [intros Hk; try discriminate Hk; discriminate|]).
    apply Forall_nil.
  - split; cbn; lia.
Defined.

(** X4.  The notice of a sync: an outcome whose success flag is false
    puts its message on display; an outcome whose success flag is true
    displays nothing and asks for a status refresh; and any key handled
    while not loading takes the notice off the display again. *)
Theorem sync_notice_lasts_until_next_key (m : Model) :
  (forall s, SyncMsg.Success s = false ->
     exists m', Update (SyncMsg s) m = Ret m' None /\
       ShowSyncMessage m' = true /\ SyncMessage m' = SyncMsg.Message s) /\
  (forall s, SyncMsg.Success s = true ->
     exists m', Update (SyncMsg s) m = Ret m' (Some LoadStatus) /\
       ShowSyncMessage m' = ShowSyncMessage m /\ SyncMessage m' = SyncMessage m) /\
  (forall k m' next, Loading m = false -> Update (Key k) m = Ret m' next ->
     ShowSyncMessage m' = false /\
     (ShowSyncMessage m = true -> SyncMessage m' = "")).
Proof.
  split; [|split].
  - intros s Hs. cbn. rewrite Hs. eexists. split; [reflexivity|]. split; reflexivity.
  - intros s Hs. cbn. rewrite Hs. eexists. split; [reflexivity|]. split; reflexivity.
  - intros k m' next Hl Hstep.
    destruct m as [st er sel qu cps hm hsel ld lt sm ssm gni dm di sg].
    destruct k as [kt rs ks]. cbn in Hl. subst ld.
    unfold Update, handleKeyMsg, clearSyncMessage, handleDescriptionInput,
      handleHistoryInput, handleMenuSelection, Model_GetMenuItems,
      pickSuggestion, quit, start_loading in Hstep.
    cbn in Hstep.
    split_tests Hstep; try discriminate Hstep;
      inversion Hstep; subst; cbn; split; congruence.
Qed.

Lemma no_pick_without_runes (k : KeyMsg) (m : Model) :
  Runes k = [] -> pickSuggestion k m = None.
Proof. intros H. unfold pickSuggestion. rewrite H. reflexivity. Qed.

(** X5.  Confirming the description never asks for a checkpoint with an
    empty message: the draft is sent as it is when it is not empty, the
    default description otherwise; the mode is left and [Loading] is
    set. *)
Theorem confirm_never_sends_an_empty_description (m : Model) (k : KeyMsg)
    (Hloading : Loading m = false)
    (Hmode : DescriptionMode m = true)
    (Htype : KType k = KeyEnter)
    (Hrunes : Runes k = []) :
  exists m' description,
    Update (Key k) m = Ret m' (Some (CreateCheckpoint description)) /\
    description <> "" /\
    (DescriptionInput m <> "" -> description = DescriptionInput m) /\
    (DescriptionInput m = "" -> description = defaultDescription) /\
    DescriptionMode m' = false /\ Loading m' = true.
Proof.
  rewrite (description_mode_dispatch m k Hloading Hmode).
  unfold handleDescriptionInput.
  rewrite (no_pick_without_runes k _ Hrunes), Htype.
  assert (Hdraft : DescriptionInput (clearSyncMessage m) = DescriptionInput m).
  { unfold clearSyncMessage. destruct (ShowSyncMessage m); reflexivity. }
  rewrite Hdraft.
  eexists. eexists. split; [reflexivity|].
  destruct (String.eqb_spec (DescriptionInput m) "") as [He|Hne].
  - repeat split; try reflexivity; try discriminate. intros H. now elim H.
  - repeat split; try reflexivity; try assumption. intros H. now elim Hne.
Qed.

Lemma confirm_never_sends_an_empty_description_witness :
  exists m' description,
    Update (Key key_enter) describing
      = Ret m' (Some (CreateCheckpoint description)) /\
    description <> "" /\
    (DescriptionInput describing <> "" ->
       description = DescriptionInput describing) /\
    (DescriptionInput describing = "" -> description = defaultDescription) /\
    DescriptionMode m' = false /\ Loading m' = true.
Proof.
  apply (confirm_never_sends_an_empty_description describing key_enter);
    reflexivity.
Defined.

(** X6.  A rollback is only ever requested from the history list, and
    only for the hash of the checkpoint the history index points at. *)
Theorem rollback_only_to_a_loaded_checkpoint
    (k : KeyMsg) (m m' : Model) (hash : string)
    (Hstep : Update (Key k) m = Ret m' (Some (RollbackToCheckpoint hash))) :
  Loading m = false /\ DescriptionMode m = false /\ HistoryMode m = true /\
  exists checkpoint,
    index (Checkpoints m) (HistorySelected m) = Some checkpoint /\
    Checkpoint.Hash checkpoint = hash /\
    In checkpoint (Checkpoints m).
Proof.
  destruct m as [st er sel qu cps hm hsel ld lt sm ssm gni dm di sg].
  destruct k as [kt rs ks].
  unfold Update, handleKeyMsg, clearSyncMessage, handleDescriptionInput,
    handleHistoryInput, handleMenuSelection, Model_GetMenuItems,
    pickSuggestion, quit, start_loading in Hstep.
  cbn in Hstep.
  split_tests Hstep; try discriminate Hstep;
    inversion Hstep; subst; cbn;
    (repeat split; try reflexivity);
    match goal with
    | H : index ?xs ?i = Some ?c |- _ =>
        exists c; repeat split; try exact H;
        unfold index in H; destruct (i <? 0); [discriminate H|];
        exact (nth_error_In _ _ H)
    end.
Qed.

Lemma rollback_only_to_a_loaded_checkpoint_witness :
  Loading browsing = false /\ DescriptionMode browsing = false /\
  HistoryMode browsing = true /\
  exists checkpoint,
    index (Checkpoints browsing) (HistorySelected browsing) = Some checkpoint /\
    Checkpoint.Hash checkpoint = "cc" /\
    In checkpoint (Checkpoints browsing).
Proof.
  exact (rollback_only_to_a_loaded_checkpoint key_enter browsing
           (start_loading "Возвращаю старый вайб..." browsing) "cc" eq_refl).
Defined.

Lemma index_In {A} (xs : list A) (i : Z) (x : A) :
  index xs i = Some x -> In x xs.
Proof.
  unfold index. destruct (i <? 0); [discriminate|]. apply nth_error_In.
Qed.

(** The entry read from one of the two menus is one of its entries. *)
Ltac known_entry :=
  match goal with
  | H : index (_ :: _) _ = Some _ |- _ =>
      apply index_In in H; cbn in H;
      repeat (destruct H as [H|H]; [subst; cbn in * |]);
      try contradiction
  | H : nth_error (_ :: _) _ = Some _ |- _ =>
      apply nth_error_In in H; cbn in H;
      repeat (destruct H as [H|H]; [subst; cbn in * |]);
      try contradiction
  end.

(** X7.  The commands a key can schedule, by mode: a checkpoint only
    in description mode and only by the enter key; a rollback only in
    history mode; in the main menu the initialization while the
    repository is uninitialized and nothing else, and the description
    prompt, the history load or the sync once it is initialized.  In
    every mode the only other command is [tea.Quit]. *)
Theorem commands_by_mode (k : KeyMsg) (m m' : Model) (c : Cmd)
    (Hstep : Update (Key k) m = Ret m' (Some c)) :
  c = Quit \/
  (DescriptionMode m = true /\ KType k = KeyEnter /\
   exists description, c = CreateCheckpoint description) \/
  (DescriptionMode m = false /\ HistoryMode m = true /\
   exists hash, c = RollbackToCheckpoint hash) \/
  (DescriptionMode m = false /\ HistoryMode m = false /\
   GitNotInitialized m = true /\ c = InitGit) \/
  (DescriptionMode m = false /\ HistoryMode m = false /\
   GitNotInitialized m = false /\
   (c = SendDescriptionMode DefaultSuggestions \/ c = LoadCheckpoints \/
    c = SyncWithRemote)).
Proof.
  destruct m as [st er sel qu cps hm hsel ld lt sm ssm gni dm di sg].
  destruct k as [kt rs ks].
  unfold Update, handleKeyMsg, clearSyncMessage, handleDescriptionInput,
    handleHistoryInput, handleMenuSelection, Model_GetMenuItems,
    pickSuggestion, quit, start_loading in Hstep.
  cbn in Hstep.
  split_tests Hstep; try discriminate Hstep;
    try known_entry; try discriminate;
    inversion Hstep; subst; cbn;
    try solve
      [ left; reflexivity
      | right; left;
        split; [reflexivity | split; [reflexivity | eexists; reflexivity]]
      | right; right; left;
        split; [reflexivity | split; [reflexivity | eexists; reflexivity]]
      | right; right; right; left; repeat split; reflexivity
      | right; right; right; right;
        split; [reflexivity | split; [reflexivity | split; [reflexivity|]]];
        first [ left; reflexivity | right; left; reflexivity
              | right; right; reflexivity ] ].
Qed.

Lemma commands_by_mode_witness :
  InitGit = Quit \/
  (DescriptionMode uninitialized = true /\ KType key_enter = KeyEnter /\
   exists description, InitGit = CreateCheckpoint description) \/
  (DescriptionMode uninitialized = false /\ HistoryMode uninitialized = true /\
   exists hash, InitGit = RollbackToCheckpoint hash) \/
  (DescriptionMode uninitialized = false /\ HistoryMode uninitialized = false /\
   GitNotInitialized uninitialized = true /\ InitGit = InitGit) \/
  (DescriptionMode uninitialized = false /\ HistoryMode uninitialized = false /\
   GitNotInitialized uninitialized = false /\
   (InitGit = SendDescriptionMode DefaultSuggestions \/ InitGit = LoadCheckpoints \/
    InitGit = SyncWithRemote)).
Proof.
  exact (commands_by_mode key_enter uninitialized
           (start_loading "Настраиваю пространство..." uninitialized)
           InitGit eq_refl).
Defined.

End ControllerMore.

(** ** The description draft, byte by byte *)

Section Draft.
Import models tea App Props Checks.

Lemma append_empty (s : string) : (s ++ "")%string = s.
Proof. induction s as [|c s IH]; cbn; [reflexivity | now rewrite IH]. Qed.

Lemma length_substring_0 (k : nat) (s : string) :
  String.length (substring 0 k s) = Nat.min k (String.length s).
Proof.
  revert k. induction s as [|c s IH]; intros [|k]; cbn; try reflexivity.
  now rewrite IH.
Qed.

Lemma substring_0_twice (a b : nat) (s : string) :
  substring 0 a (substring 0 b s) = substring 0 (Nat.min a b) s.
Proof.
  revert a b. induction s as [|c s IH]; intros [|a] [|b]; cbn; try reflexivity.
  now rewrite IH.
Qed.

Lemma substring_0_app (s t : string) (k : nat) :
  substring 0 (String.length s + k) (s ++ t) = (s ++ substring 0 k t)%string.
Proof. induction s as [|c s IH]; cbn; [reflexivity | now rewrite IH]. Qed.

Lemma substring_0_all (s : string) : substring 0 (String.length s) s = s.
Proof. induction s as [|c s IH]; cbn; [reflexivity | now rewrite IH]. Qed.

Lemma length_append (s t : string) :
  String.length (s ++ t) = (String.length s + String.length t)%nat.
Proof. induction s as [|c s IH]; cbn; [reflexivity | now rewrite IH]. Qed.

(** Dropping the last byte [j] times keeps the bytes before the last
    [j]. *)
Lemma drop_last_bytes (j : nat) (s : string) :
  Nat.iter j drop_last_byte s = substring 0 (String.length s - j) s.
Proof.
  induction j as [|j IH].
  - change (Nat.iter 0 drop_last_byte s) with s.
    rewrite Nat.sub_0_r. symmetry. apply substring_0_all.
  - rewrite Nat.iter_succ, IH. unfold drop_last_byte.
    rewrite length_substring_0, substring_0_twice. f_equal. lia.
Qed.

(** The backspace key in description mode. *)
Lemma backspace_step (m : Model) :
  Loading m = false -> DescriptionMode m = true ->
  Update (Key key_backspace) m =
  Ret (set_DescriptionInput (drop_last_byte (DescriptionInput m))
         (clearSyncMessage m)) None.
Proof.
  intros Hl Hd. rewrite (description_mode_dispatch m key_backspace Hl Hd).
  unfold handleDescriptionInput. cbn.
  assert (Hdraft : DescriptionInput (clearSyncMessage m) = DescriptionInput m).
  { unfold clearSyncMessage. destruct (ShowSyncMessage m); reflexivity. }
  rewrite Hdraft.
  destruct (Z.gtb_spec (strlen (DescriptionInput m)) 0) as [Hpos|Hzero];
    [reflexivity|].
  assert (He : DescriptionInput m = "").
  { unfold strlen in Hzero. destruct (DescriptionInput m); [reflexivity|].
    cbn [String.length] in Hzero. lia. }
  rewrite He.
  destruct m as [st er sel qu cps hm hsel ld lt sm ssm gni dm di sg].
  cbn in He. subst di. unfold clearSyncMessage. cbn. destruct ssm; reflexivity.
Qed.

Lemma backspaces_run (j : nat) (m : Model) :
  Loading m = false -> DescriptionMode m = true ->
  exists m',
    feed (repeat (Key key_backspace) j) m = Some (m', []) /\
    Loading m' = false /\ DescriptionMode m' = true /\
    Suggestions m' = Suggestions m /\
    DescriptionInput m' = Nat.iter j drop_last_byte (DescriptionInput m).
Proof.
  revert m. induction j as [|j IH]; intros m Hl Hd.
  - exists m. repeat split; assumption.
  - set (m1 := set_DescriptionInput (drop_last_byte (DescriptionInput m))
                 (clearSyncMessage m)).
    assert (Hl1 : Loading m1 = false).
    { unfold m1, clearSyncMessage. destruct (ShowSyncMessage m); exact Hl. }
    assert (Hd1 : DescriptionMode m1 = true).
    { unfold m1, clearSyncMessage. destruct (ShowSyncMessage m); exact Hd. }
    destruct (IH m1 Hl1 Hd1) as (m' & Hfeed & Hl' & Hd' & Hs' & Hdraft).
    exists m'. cbn [repeat feed]. rewrite (backspace_step m Hl Hd).
    fold m1. rewrite Hfeed. repeat split; try assumption.
    + rewrite Hs'. unfold m1, clearSyncMessage.
      destruct (ShowSyncMessage m); reflexivity.
    + rewrite Hdraft. rewrite Nat.iter_succ_r. reflexivity.
Qed.

(** X8.  In description mode [j] backspaces cut the last [j] bytes off
    the draft, all of it when it is shorter; they schedule nothing and
    stay in description mode. *)
Theorem backspaces_cut_bytes (j : nat) (m : Model)
    (Hloading : Loading m = false) (Hmode : DescriptionMode m = true) :
  exists m',
    feed (repeat (Key key_backspace) j) m = Some (m', []) /\
    DescriptionMode m' = true /\
    DescriptionInput m' =
      substring 0 (String.length (DescriptionInput m) - j) (DescriptionInput m) /\
    ((String.length (DescriptionInput m) <= j)%nat -> DescriptionInput m' = "").
Proof.
  destruct (backspaces_run j m Hloading Hmode) as (m' & Hfeed & _ & Hd & _ & Hdraft).
  exists m'. rewrite drop_last_bytes in Hdraft.
  repeat split; try assumption.
  intros Hle. rewrite Hdraft.
  replace (String.length (DescriptionInput m) - j)%nat with 0%nat by lia.
  destruct (DescriptionInput m); reflexivity.
Qed.

Lemma backspaces_cut_bytes_witness :
  exists m',
    feed (repeat (Key key_backspace) 1) drafting = Some (m', []) /\
    DescriptionMode m' = true /\
    DescriptionInput m' =
      substring 0 (String.length (DescriptionInput drafting) - 1)
        (DescriptionInput drafting) /\
    ((String.length (DescriptionInput drafting) <= 1)%nat ->
     DescriptionInput m' = "").
Proof.
  apply (backspaces_cut_bytes 1 drafting); reflexivity.
Defined.

(** A key of runes that is not taken for a digit is added to the draft. *)
Lemma typing_step (m : Model) (r : rune) :
  Loading m = false -> DescriptionMode m = true -> r < 49 \/ 57 < r ->
  Update (Key (key_runes [r])) m =
  Ret (set_DescriptionInput (DescriptionInput m ++ utf8_encode_rune r)
         (clearSyncMessage m)) None.
Proof.
  intros Hl Hd Hr. rewrite (description_mode_dispatch m _ Hl Hd).
  unfold handleDescriptionInput, pickSuggestion. cbn.
  assert (Hdraft : DescriptionInput (clearSyncMessage m) = DescriptionInput m).
  { unfold clearSyncMessage. destruct (ShowSyncMessage m); reflexivity. }
  rewrite Hdraft, append_empty.
  destruct (Z.leb_spec 49 r); destruct (Z.leb_spec r 57); cbn [andb];
    destruct (Z.ltb_spec r 49); destruct (Z.gtb_spec r 57); cbn [orb];
    try reflexivity; lia.
Qed.

(** X9.  Typing one character that is not a digit [1]..[9] adds its
    UTF-8 bytes to the draft, and it takes as many backspaces as the
    character has bytes to get the draft back: after [j] of them the
    draft still ends with the first bytes of the character. *)
Theorem backspaces_undo_a_typed_character (m : Model) (r : rune) (j : nat)
    (Hloading : Loading m = false) (Hmode : DescriptionMode m = true)
    (Hrune : r < 49 \/ 57 < r)
    (Hj : (j <= String.length (utf8_encode_rune r))%nat) :
  exists m',
    feed (Key (key_runes [r]) :: repeat (Key key_backspace) j) m
      = Some (m', []) /\
    DescriptionInput m' =
      (DescriptionInput m ++
       substring 0 (String.length (utf8_encode_rune r) - j)
         (utf8_encode_rune r))%string /\
    (j = String.length (utf8_encode_rune r) ->
     DescriptionInput m' = DescriptionInput m).
Proof.
  set (m1 := set_DescriptionInput (DescriptionInput m ++ utf8_encode_rune r)
               (clearSyncMessage m)).
  assert (Hl1 : Loading m1 = false).
  { unfold m1, clearSyncMessage. destruct (ShowSyncMessage m); exact Hloading. }
  assert (Hd1 : DescriptionMode m1 = true).
  { unfold m1, clearSyncMessage. destruct (ShowSyncMessage m); exact Hmode. }
  destruct (backspaces_run j m1 Hl1 Hd1) as (m' & Hfeed & _ & _ & _ & Hdraft).
  exists m'. cbn [feed]. rewrite (typing_step m r Hloading Hmode Hrune).
  fold m1. rewrite Hfeed.
  assert (Hcut : DescriptionInput m' =
    (DescriptionInput m ++
     substring 0 (String.length (utf8_encode_rune r) - j)
       (utf8_encode_rune r))%string).
  { rewrite Hdraft, drop_last_bytes. cbn [m1 DescriptionInput set_DescriptionInput].
    rewrite length_append.
    replace (String.length (DescriptionInput m)
             + String.length (utf8_encode_rune r) - j)%nat
      with (String.length (DescriptionInput m)
            + (String.length (utf8_encode_rune r) - j))%nat by lia.
    apply substring_0_app. }
  repeat split; try assumption.
  intros ->. rewrite Hcut, Nat.sub_diag.
  destruct (utf8_encode_rune r); cbn; apply append_empty.
Qed.

Lemma backspaces_undo_a_typed_character_witness :
  exists m',
    feed (Key (key_runes [0x44F]) :: repeat (Key key_backspace) 2) describing
      = Some (m', []) /\
    DescriptionInput m' =
      (DescriptionInput describing ++
       substring 0 (String.length (utf8_encode_rune 0x44F) - 2)
         (utf8_encode_rune 0x44F))%string /\
    (2%nat = String.length (utf8_encode_rune 0x44F) ->
     DescriptionInput m' = DescriptionInput describing).
Proof.
  apply (backspaces_undo_a_typed_character describing 0x44F 2).
  - reflexivity.
  - reflexivity.
  - right. lia.
  - cbn. lia.
Defined.

(** Picking a suggestion with its digit. *)
Lemma pick_step (m : Model) (k : KeyMsg) (r : rune) (s : string) :
  Loading m = false -> DescriptionMode m = true ->
  Runes k = [r] -> 49 <= r <= 57 ->
  index (Suggestions m) (r - 49) = Some s ->
  Update (Key k) m = Ret (set_DescriptionInput s (clearSyncMessage m)) None.
Proof.
  intros Hl Hd Hrunes Hdigit Hpick.
  rewrite (description_mode_dispatch m k Hl Hd).
  unfold handleDescriptionInput, pickSuggestion. rewrite Hrunes.
  assert (Hsg : Suggestions (clearSyncMessage m) = Suggestions m).
  { unfold clearSyncMessage. destruct (ShowSyncMessage m); reflexivity. }
  rewrite Hsg, Hpick.
  destruct (Z.leb_spec 49 r); [|lia]. destruct (Z.leb_spec r 57); [|lia].
  cbn [andb].
  destruct (Z.ltb_spec (r - 49) (len (Suggestions m))) as [_|Hge]; [reflexivity|].
  exfalso. unfold index in Hpick. destruct (r - 49 <? 0); [discriminate|].
  assert (Hlt : (Z.to_nat (r - 49) < List.length (Suggestions m))%nat).
  { apply nth_error_Some. congruence. }
  unfold len in Hge. lia.
Qed.

(** X10.  In description mode a digit key followed by the enter key
    asks for a checkpoint whose message is the suggestion at that
    position, whatever the draft held before. *)
Theorem digit_then_confirm_sends_the_suggestion
    (m : Model) (k : KeyMsg) (r : rune) (s : string)
    (Hloading : Loading m = false) (Hmode : DescriptionMode m = true)
    (Hrunes : Runes k = [r]) (Hdigit : 49 <= r <= 57)
    (Hpick : index (Suggestions m) (r - 49) = Some s)
    (Hs : s <> "") :
  exists m',
    feed [Key k; Key key_enter] m = Some (m', [CreateCheckpoint s]) /\
    DescriptionMode m' = false /\ Loading m' = true.
Proof.
  cbn [feed]. rewrite (pick_step m k r s Hloading Hmode Hrunes Hdigit Hpick).
  set (m1 := set_DescriptionInput s (clearSyncMessage m)).
  assert (Hl1 : Loading m1 = false).
  { unfold m1, clearSyncMessage. destruct (ShowSyncMessage m); exact Hloading. }
  assert (Hd1 : DescriptionMode m1 = true).
  { unfold m1, clearSyncMessage. destruct (ShowSyncMessage m); exact Hmode. }
  rewrite (description_mode_dispatch m1 key_enter Hl1 Hd1).
  unfold handleDescriptionInput. cbn [pickSuggestion key_enter Runes KType].
  assert (Hdraft : DescriptionInput (clearSyncMessage m1) = s).
  { unfold clearSyncMessage. destruct (ShowSyncMessage m1); reflexivity. }
  rewrite Hdraft.
  destruct (String.eqb_spec s "") as [He|_]; [now elim Hs|].
  eexists. split; [reflexivity|]. split; reflexivity.
Qed.

Lemma digit_then_confirm_sends_the_suggestion_witness :
  exists m',
    feed [Key (key_char "2" 50); Key key_enter] drafting
      = Some (m', [CreateCheckpoint "Фикс на лету 🐛"]) /\
    DescriptionMode m' = false /\ Loading m' = true.
Proof.
  apply (digit_then_confirm_sends_the_suggestion drafting (key_char "2" 50) 50
           "Фикс на лету 🐛"); try reflexivity.
  - lia.
  - discriminate.
Defined.

End Draft.

(** * The service, further properties *)

Section ServiceMore.
Import models tea timekeeper Props.
Variable E : Engine.

(** Branching on the answers of the calls met in [H], in order. *)
Ltac answers H :=
  repeat (match type of H with
    | context [Getwd E ?a] => destruct (Getwd E a) eqn:?
    | context [PlainOpen E ?a ?b] => destruct (PlainOpen E a b) eqn:?
    | context [Repo_Worktree E ?a ?b] => destruct (Repo_Worktree E a b) eqn:?
    | context [Repo_Remote E ?a ?b ?c] => destruct (Repo_Remote E a b c) eqn:?
    | context [Repo_Head E ?a ?b] => destruct (Repo_Head E a b) eqn:?
    | context [Repo_Log E ?a ?b ?c ?d] =>
        destruct (Repo_Log E a b c d) as [[? [?|]]|?] eqn:?
    | context [Worktree_Pull E ?a ?b ?c] =>
        destruct (Worktree_Pull E a b c) as [[?|] ?] eqn:?
    | context [is_NoErrAlreadyUpToDate ?a] =>
        destruct (is_NoErrAlreadyUpToDate a) eqn:?
    | context [Worktree_Status E ?a ?b] =>
        destruct (Worktree_Status E a b) eqn:?
    | context [Status_IsClean E ?a] => destruct (Status_IsClean E a) eqn:?
    | context [Worktree_Add E ?a ?b ?c] =>
        destruct (Worktree_Add E a b c) as [[?|?] ?] eqn:?
    | context [Now E ?a] => destruct (Now E a) as [? ?] eqn:?
    | context [Worktree_Commit E ?a ?b ?c ?d] =>
        destruct (Worktree_Commit E a b c d) as [[?|?] ?] eqn:?
    | context [Worktree_Reset E ?a ?b ?c ?d] =>
        destruct (Worktree_Reset E a b c d) as [[?|] ?] eqn:?
    | context [Remote_Push E ?a ?b ?c] =>
        destruct (Remote_Push E a b c) as [[?|] ?] eqn:?
    end; cbn in H).

Ltac open_service H :=
  unfold run, SyncWithRemote, syncPull, syncPush, CreateCheckpoint,
    LoadCheckpoints, RollbackToCheckpoint, orReturn, orReturn', println,
    bind, read, exec, ret, Return, log, wrap in H;
  cbn in H; answers H.

(** Going through a list of calls that is known call by call. *)
Ltac each_call H :=
  cbn in H; repeat (destruct H as [H|H]; [try discriminate H|]);
  try contradiction.

(** Pointing at a call in a list that is known call by call. *)
Ltac find_call := cbn; repeat (first [left; reflexivity | right]).

(** X11.  Loading the history makes no call that writes and no call to
    the remote, leaves the world as it is, and returns either the list
    of checkpoints or an error. *)
Theorem LoadCheckpoints_only_reads (w w' : World E) (msg : Msg)
    (made : list (Call E))
    (Hrun : run (LoadCheckpoints E) w = (msg, w', made)) :
  w' = w /\
  existsb is_write made = false /\
  existsb is_network made = false /\
  ((exists cps, msg = CheckpointsLoadedMsg cps) \/ (exists e, msg = ErrMsg e)).
Proof.
  open_service Hrun; inversion Hrun; subst; cbn; eauto 6.
Qed.

Lemma filter_current_le_1 (head : string) (hashes : list string) :
  NoDup hashes ->
  (List.length (filter (fun h => String.eqb h head) hashes) <= 1)%nat.
Proof.
  induction 1 as [|h hs Hnotin Hnodup IH]; cbn; [lia|].
  destruct (String.eqb_spec h head) as [->|Hne]; [|exact IH].
  cbn. replace (filter (fun h => String.eqb h head) hs) with (@nil string);
    [cbn; lia|].
  symmetry. clear IH Hnodup. induction hs as [|x xs IHx]; cbn; [reflexivity|].
  destruct (String.eqb_spec x head) as [->|_].
  - elim Hnotin. now left.
  - apply IHx. intros Hin. apply Hnotin. now right.
Qed.

(** X12.  A loaded history holds one checkpoint for each commit of
    the log, in the order of the log, with the commit's hash and
    message; a checkpoint is flagged as current exactly when its hash is
    the head's, so at most one is when the hashes are distinct. *)
Theorem history_flags_the_head (w w' : World E) (cps : list Checkpoint.t)
    (made : list (Call E))
    (Hrun : run (LoadCheckpoints E) w = (CheckpointsLoadedMsg cps, w', made)) :
  exists pwd repo head commits,
    Getwd E w = Ok pwd /\ PlainOpen E pwd w = Ok repo /\
    Repo_Head E repo w = Ok head /\
    Repo_Log E repo head LogOrderCommitterTime w = Ok (commits, None) /\
    map Checkpoint.Hash cps
      = map (fun c => Hash_String E (fst (fst c))) commits /\
    map Checkpoint.Message cps = map (fun c => snd (fst c)) commits /\
    (forall c, In c cps ->
       (Checkpoint.IsCurrent c = true <->
        Checkpoint.Hash c = Hash_String E head)) /\
    (NoDup (map Checkpoint.Hash cps) ->
     (List.length (filter Checkpoint.IsCurrent cps) <= 1)%nat).
Proof.
  destruct (LoadCheckpoints_loaded E _ _ _ _ Hrun)
    as (pwd & repo & head & commits & Hwd & Hopen & Hhead & Hlog & -> & _).
  exists pwd, repo, head, commits.
  repeat (split; [assumption|]).
  assert (Hcur : forall c,
             In c (map (toCheckpoint E (Hash_String E head)) commits) ->
             Checkpoint.IsCurrent c
             = String.eqb (Checkpoint.Hash c) (Hash_String E head)).
  { intros c Hin. apply in_map_iff in Hin. destruct Hin as ([[h m] a] & <- & _).
    reflexivity. }
  split; [|split; [|split]].
  - rewrite map_map. apply map_ext. intros [[h m] a]. reflexivity.
  - rewrite map_map. apply map_ext. intros [[h m] a]. reflexivity.
  - intros c Hin. rewrite (Hcur c Hin). apply String.eqb_eq.
  - intros Hnodup.
    pose proof (filter_current_le_1 (Hash_String E head) _ Hnodup) as Hle.
    rewrite <- (length_map Checkpoint.Hash).
    replace (map Checkpoint.Hash
               (filter Checkpoint.IsCurrent
                  (map (toCheckpoint E (Hash_String E head)) commits)))
      with (filter (fun h => String.eqb h (Hash_String E head))
              (map Checkpoint.Hash
                 (map (toCheckpoint E (Hash_String E head)) commits)));
      [exact Hle|].
    clear Hle Hnodup Hcur Hlog Hrun.
    induction commits as [|[[h m] a] cs IH]; cbn; [reflexivity|].
    destruct (String.eqb (Hash_String E h) (Hash_String E head)); cbn;
      [f_equal|]; exact IH.
Qed.

(** X13.  Creating a checkpoint never talks to the remote.  A commit is
    attempted only after the staging, with the description as its
    message, unchanged, under the checkpoint identity.  The outcome is a
    success with that commit made, an error naming the commit, an error
    naming the staging with no commit attempted, or an earlier error
    with nothing written; a created message is never unsuccessful. *)
Theorem CreateCheckpoint_outcomes (description : string) (w w' : World E)
    (msg : Msg) (made : list (Call E))
    (Hrun : run (CreateCheckpoint E description) w = (msg, w', made)) :
  existsb is_network made = false /\
  (forall cmsg opts, In (CCommit cmsg opts) made ->
     cmsg = description /\
     Name (Author opts) = CheckpointAuthorName /\
     Email (Author opts) = CheckpointAuthorEmail /\
     In (CAdd ".") made) /\
  ((exists text opts,
       msg = CheckpointCreatedMsg true text /\
       In (CCommit description opts) made) \/
   (exists cause opts,
       msg = ErrMsg (ErrWrap ErrFailedToCreateCheckpoint cause) /\
       In (CCommit description opts) made) \/
   (exists cause,
       msg = ErrMsg (ErrWrap ErrFailedToAddFiles cause) /\
       In (CAdd ".") made /\
       forall cmsg opts, ~ In (CCommit cmsg opts) made) \/
   (exists e, msg = ErrMsg e /\ w' = w /\ existsb is_write made = false)).
Proof.
  open_service Hrun; inversion Hrun; subst; clear Hrun;
    (split; [reflexivity|]);
    (split; [intros cmsg opts Hin; each_call Hin;
             inversion Hin; subst; cbn; auto 8 |]).
  - left. do 2 eexists. split; [reflexivity|]. cbn. auto 8.
  - right. left. do 2 eexists. split; [reflexivity|]. cbn. auto 8.
  - right. right. left. eexists. split; [reflexivity|].
    split; [cbn; auto 8|]. intros cmsg opts Hin. each_call Hin.
  - right. right. right. eexists. repeat split; reflexivity.
  - right. right. right. eexists. repeat split; reflexivity.
  - right. right. right. eexists. repeat split; reflexivity.
Qed.

(** X14.  A rollback never talks to the remote, and the only call that
    writes is the hard reset to the hash parsed from the identifier.
    It reports success exactly when that reset succeeded and failure,
    with the error's text, when it did not; the world is the one the
    reset left.  An earlier error leaves the world as it was. *)
Theorem rollback_outcomes (id : string) (w w' : World E) (msg : Msg)
    (made : list (Call E))
    (Hrun : run (RollbackToCheckpoint E id) w = (msg, w', made)) :
  existsb is_network made = false /\
  (forall c, In c made -> is_write c = true ->
     c = CReset (NewHash E id) HardReset) /\
  ((exists wt,
       msg = RollbackMsg true
               ("Успешно перемотали к моменту: " ++ Sprintf_prec7 E id) /\
       Worktree_Reset E wt (NewHash E id) HardReset w = (None, w')) \/
   (exists wt e,
       msg = RollbackMsg false ("Не удалось перемотать: " ++ Error e) /\
       Worktree_Reset E wt (NewHash E id) HardReset w = (Some e, w')) \/
   (exists e, msg = ErrMsg e /\ w' = w /\ existsb is_write made = false)).
Proof.
  open_service Hrun; inversion Hrun; subst; clear Hrun;
    (split; [reflexivity|]);
    (split; [intros c Hin Hw; each_call Hin; subst; cbn in Hw;
             try discriminate Hw; reflexivity |]).
  - right. left. do 2 eexists. split; [reflexivity | eassumption].
  - left. eexists. split; [reflexivity | eassumption].
  - right. right. eexists. repeat split; reflexivity.
  - right. right. eexists. repeat split; reflexivity.
  - right. right. eexists. repeat split; reflexivity.
Qed.


Ltac answer H := rewrite H; cbn.

(** X15.  When the pull reports "already up to date", nothing is
    staged or committed, and the notice is the notice of the push
    alone: "up to date" once when the push has nothing to send either,
    "pushed" or "force pushed" otherwise, or the error of a forced push
    that failed. *)
Theorem sync_after_up_to_date_pull
    (w : World E) (pwd : string) (repo : Repository E) (wt : Worktree E)
    (remote : Remote E) (w1 : World E)
    (pushErr : option error) (w2 : World E)
    (forceErr : option error) (w3 : World E)
    (Hwd : Getwd E w = Ok pwd)
    (Hopen : PlainOpen E pwd w = Ok repo)
    (Hwt : Repo_Worktree E repo w = Ok wt)
    (Hremote : Repo_Remote E repo "origin" w = Ok remote)
    (Hpull : Worktree_Pull E wt {| PullRemoteName := "origin" |} w
             = (Some NoErrAlreadyUpToDate, w1))
    (Hpush : Remote_Push E remote
               {| PushRemoteName := "origin"; Force := false |} w1
             = (pushErr, w2))
    (Hforce : Remote_Push E remote
                {| PushRemoteName := "origin"; Force := true |} w2
              = (forceErr, w3)) :
  let outcome (notice : string) (pushed : bool) :=
    SyncMsg {| SyncMsg.Success := true; SyncMsg.Message := notice;
               SyncMsg.Pulled := false; SyncMsg.Pushed := pushed;
               SyncMsg.Conflict := false |} in
  let pushing : list (Call E) :=
    [CGetwd; CPlainOpen pwd; CWorktree; CRemote "origin";
     CPrintln "Pulling from remote...";
     CPull {| PullRemoteName := "origin" |};
     CPrintln "Pushing to remote...";
     CPush {| PushRemoteName := "origin"; Force := false |}] in
  let forcing : list (Call E) :=
    (pushing ++ [CPrintln "Normal push failed, trying force push...";
                 CPush {| PushRemoteName := "origin"; Force := true |}])%list in
  run (SyncWithRemote E) w =
  match pushErr with
  | None => (outcome ErrPushSuccess true, w2, pushing)
  | Some pe =>
      if is_NoErrAlreadyUpToDate pe
      then (outcome ErrAlreadyUpToDate false, w2, pushing)
      else
        match forceErr with
        | None => (outcome ErrForcePushSuccess true, w3, forcing)
        | Some fe => (ErrMsg (ErrWrap ErrFailedToPush fe), w3, forcing)
        end
  end.
Proof.
  intros outcome pushing forcing.
  unfold run, SyncWithRemote, syncPull, syncPush, orReturn, orReturn', println,
    bind, read, exec, ret, Return, log, wrap. cbn.
  answer Hwd. answer Hopen. answer Hwt. answer Hremote. answer Hpull.
  answer Hpush.
  destruct pushErr as [pe|]; cbn; [|reflexivity].
  destruct (is_NoErrAlreadyUpToDate pe); cbn; [reflexivity|].
  answer Hforce. destruct forceErr; reflexivity.
Qed.

(** X16.  When the pull succeeds, nothing is staged or committed,
    pulled is set and the conflict flag is not, and the notice is the
    pull notice followed by what the push did. *)
Theorem sync_after_successful_pull
    (w : World E) (pwd : string) (repo : Repository E) (wt : Worktree E)
    (remote : Remote E) (w1 : World E)
    (pushErr : option error) (w2 : World E)
    (forceErr : option error) (w3 : World E)
    (Hwd : Getwd E w = Ok pwd)
    (Hopen : PlainOpen E pwd w = Ok repo)
    (Hwt : Repo_Worktree E repo w = Ok wt)
    (Hremote : Repo_Remote E repo "origin" w = Ok remote)
    (Hpull : Worktree_Pull E wt {| PullRemoteName := "origin" |} w = (None, w1))
    (Hpush : Remote_Push E remote
               {| PushRemoteName := "origin"; Force := false |} w1
             = (pushErr, w2))
    (Hforce : Remote_Push E remote
                {| PushRemoteName := "origin"; Force := true |} w2
              = (forceErr, w3)) :
  let outcome (suffix : string) (pushed : bool) :=
    SyncMsg {| SyncMsg.Success := true;
               SyncMsg.Message := ErrPullSuccess ++ suffix;
               SyncMsg.Pulled := true; SyncMsg.Pushed := pushed;
               SyncMsg.Conflict := false |} in
  let pushing : list (Call E) :=
    [CGetwd; CPlainOpen pwd; CWorktree; CRemote "origin";
     CPrintln "Pulling from remote...";
     CPull {| PullRemoteName := "origin" |};
     CPrintln "Pushing to remote...";
     CPush {| PushRemoteName := "origin"; Force := false |}] in
  let forcing : list (Call E) :=
    (pushing ++ [CPrintln "Normal push failed, trying force push...";
                 CPush {| PushRemoteName := "origin"; Force := true |}])%list in
  run (SyncWithRemote E) w =
  match pushErr with
  | None => (outcome ", pushed successfully" true, w2, pushing)
  | Some pe =>
      if is_NoErrAlreadyUpToDate pe
      then (outcome ", already up to date on push" false, w2, pushing)
      else
        match forceErr with
        | None => (outcome ", force pushed successfully" true, w3, forcing)
        | Some fe => (ErrMsg (ErrWrap ErrFailedToPush fe), w3, forcing)
        end
  end.
Proof.
  intros outcome pushing forcing.
  unfold run, SyncWithRemote, syncPull, syncPush, orReturn, orReturn', println,
    bind, read, exec, ret, Return, log, wrap. cbn.
  answer Hwd. answer Hopen. answer Hwt. answer Hremote. answer Hpull.
  answer Hpush.
  destruct pushErr as [pe|]; cbn; [|reflexivity].
  destruct (is_NoErrAlreadyUpToDate pe); cbn; [reflexivity|].
  answer Hforce. destruct forceErr; reflexivity.
Qed.

(** X17.  A sync never resets, and it stages or commits only when the
    pull failed for a reason other than "already up to date" and the
    status computed afterwards is not clean; the commit then carries the
    conflict identity and the "Auto-resolve conflicts" message, and
    comes after the staging. *)
Theorem sync_commits_only_a_dirty_conflict (w w' : World E) (msg : Msg)
    (made : list (Call E))
    (Hrun : run (SyncWithRemote E) w = (msg, w', made)) :
  (forall h mode, ~ In (CReset h mode) made) /\
  (forall path, In (CAdd path) made \/ (exists c o, In (CCommit c o) made) ->
     exists wt pullErr w1 status,
       Worktree_Pull E wt {| PullRemoteName := "origin" |} w
         = (Some pullErr, w1) /\
       is_NoErrAlreadyUpToDate pullErr = false /\
       Worktree_Status E wt w1 = Ok status /\
       Status_IsClean E status = false) /\
  (forall cmsg opts, In (CCommit cmsg opts) made ->
     Name (Author opts) = ConflictAuthorName /\
     Email (Author opts) = ConflictAuthorEmail /\
     prefix "Auto-resolve conflicts: " cmsg = true /\
     In (CAdd ".") made).
Proof.
  open_service Hrun; inversion Hrun; subst; clear Hrun;
    (split; [intros h mode Hin; each_call Hin |]);
    (split;
      [ intros path [Hin|(c & o & Hin)]; each_call Hin;
        do 4 eexists; repeat split; eassumption
      | intros cmsg opts Hin; each_call Hin; inversion Hin; subst; cbn;
        repeat split; auto 12;
        match goal with
        | |- context [Format E ?t] => destruct (Format E t); reflexivity
        end ]).
Qed.


(** X18.  The flags of the outcome of a sync: the success flag is
    false only for the missing remote, with the world untouched and no
    network call made; otherwise a pull and a plain push were made;
    pulled and the conflict flag are never both set; an outcome that is
    not pushed made no forced push; and the notice is never empty. *)
Theorem sync_outcome_flags (w w' : World E) (s : SyncMsg.t)
    (made : list (Call E))
    (Hrun : run (SyncWithRemote E) w = (SyncMsg s, w', made)) :
  (SyncMsg.Success s = false ->
     s = noRemote /\ w' = w /\ existsb is_network made = false) /\
  (SyncMsg.Success s = true ->
     In (CPull {| PullRemoteName := "origin" |}) made /\
     In (CPush {| PushRemoteName := "origin"; Force := false |}) made) /\
  (SyncMsg.Pulled s = true -> SyncMsg.Conflict s = false) /\
  (SyncMsg.Pushed s = false ->
     ~ In (CPush {| PushRemoteName := "origin"; Force := true |}) made) /\
  SyncMsg.Message s <> "".
Proof.
  open_service Hrun; inversion Hrun; subst; clear Hrun; cbn;
    (split; [solve [intros Hs; try discriminate Hs; repeat split; reflexivity] |]);
    (split; [solve [intros Hs; try discriminate Hs; split; find_call] |]);
    (split; [solve [intros Hs; try discriminate Hs; reflexivity] |]);
    (split; [solve [intros Hs; try discriminate Hs; intros Hin; each_call Hin] |]);
    intros Hm; vm_compute in Hm; discriminate Hm.
Qed.


End ServiceMore.

(** ** The service run on the engine in memory *)

Section ServiceRuns.
Import models tea timekeeper Props Checks.

Lemma LoadCheckpoints_only_reads_witness :
  exists msg w' made,
    run (LoadCheckpoints memgit.engine) memgit.diverged = (msg, w', made) /\
    w' = memgit.diverged /\
    existsb is_write made = false /\
    existsb is_network made = false /\
    ((exists cps, msg = CheckpointsLoadedMsg cps) \/ (exists e, msg = ErrMsg e)).
Proof.
  do 3 eexists. split; [reflexivity|].
  eapply (LoadCheckpoints_only_reads memgit.engine memgit.diverged).
  reflexivity.
Defined.

Lemma history_flags_the_head_witness :
  exists cps w' made,
    run (LoadCheckpoints memgit.engine) memgit.resolved
      = (CheckpointsLoadedMsg cps, w', made) /\
    exists pwd repo head commits,
      Getwd memgit.engine memgit.resolved = Ok pwd /\
      PlainOpen memgit.engine pwd memgit.resolved = Ok repo /\
      Repo_Head memgit.engine repo memgit.resolved = Ok head /\
      Repo_Log memgit.engine repo head LogOrderCommitterTime memgit.resolved
        = Ok (commits, None) /\
      map Checkpoint.Hash cps
        = map (fun c => Hash_String memgit.engine (fst (fst c))) commits /\
      map Checkpoint.Message cps = map (fun c => snd (fst c)) commits /\
      (forall c, In c cps ->
         (Checkpoint.IsCurrent c = true <->
          Checkpoint.Hash c = Hash_String memgit.engine head)) /\
      (NoDup (map Checkpoint.Hash cps) ->
       (List.length (filter Checkpoint.IsCurrent cps) <= 1)%nat).
Proof.
  do 3 eexists. split; [reflexivity|].
  eapply (history_flags_the_head memgit.engine memgit.resolved).
  reflexivity.
Defined.

Lemma CreateCheckpoint_outcomes_witness :
  exists msg w' made,
    run (CreateCheckpoint memgit.engine "Вайб чек") memgit.diverged
      = (msg, w', made) /\
    existsb is_network made = false /\
    (forall cmsg opts, In (CCommit cmsg opts) made ->
       cmsg = "Вайб чек" /\
       Name (Author opts) = CheckpointAuthorName /\
       Email (Author opts) = CheckpointAuthorEmail /\
       In (CAdd ".") made) /\
    ((exists text opts,
         msg = CheckpointCreatedMsg true text /\
         In (CCommit "Вайб чек" opts) made) \/
     (exists cause opts,
         msg = ErrMsg (ErrWrap ErrFailedToCreateCheckpoint cause) /\
         In (CCommit "Вайб чек" opts) made) \/
     (exists cause,
         msg = ErrMsg (ErrWrap ErrFailedToAddFiles cause) /\
         In (CAdd ".") made /\
         forall cmsg opts, ~ In (CCommit cmsg opts) made) \/
     (exists e, msg = ErrMsg e /\ w' = memgit.diverged /\
                existsb is_write made = false)).
Proof.
  do 3 eexists. split; [reflexivity|].
  eapply (CreateCheckpoint_outcomes memgit.engine "Вайб чек" memgit.diverged).
  reflexivity.
Defined.

Lemma rollback_outcomes_witness :
  exists msg w' made,
    run (RollbackToCheckpoint memgit.engine "c") memgit.resolved
      = (msg, w', made) /\
    existsb is_network made = false /\
    (forall c, In c made -> is_write c = true ->
       c = CReset (NewHash memgit.engine "c") HardReset) /\
    ((exists wt,
         msg = RollbackMsg true
                 ("Успешно перемотали к моменту: "
                  ++ Sprintf_prec7 memgit.engine "c") /\
         Worktree_Reset memgit.engine wt (NewHash memgit.engine "c") HardReset
           memgit.resolved = (None, w')) \/
     (exists wt e,
         msg = RollbackMsg false ("Не удалось перемотать: " ++ Error e) /\
         Worktree_Reset memgit.engine wt (NewHash memgit.engine "c") HardReset
           memgit.resolved = (Some e, w')) \/
     (exists e, msg = ErrMsg e /\ w' = memgit.resolved /\
                existsb is_write made = false)).
Proof.
  do 3 eexists. split; [reflexivity|].
  eapply (rollback_outcomes memgit.engine "c" memgit.resolved).
  reflexivity.
Defined.

Lemma sync_after_up_to_date_pull_witness :
  run (SyncWithRemote memgit.engine) in_step =
  (SyncMsg {| SyncMsg.Success := true; SyncMsg.Message := ErrAlreadyUpToDate;
              SyncMsg.Pulled := false; SyncMsg.Pushed := false;
              SyncMsg.Conflict := false |},
   in_step,
   [CGetwd; CPlainOpen "/work"; CWorktree; CRemote "origin";
    CPrintln "Pulling from remote...";
    CPull {| PullRemoteName := "origin" |};
    CPrintln "Pushing to remote...";
    CPush {| PushRemoteName := "origin"; Force := false |}]).
Proof.
  exact (sync_after_up_to_date_pull memgit.engine in_step "/work" tt tt tt
           in_step (Some NoErrAlreadyUpToDate) in_step None in_step
           eq_refl eq_refl eq_refl eq_refl eq_refl eq_refl eq_refl).
Defined.

Lemma sync_after_successful_pull_witness :
  run (SyncWithRemote memgit.engine) behind =
  (SyncMsg {| SyncMsg.Success := true;
              SyncMsg.Message :=
                (ErrPullSuccess ++ ", already up to date on push")%string;
              SyncMsg.Pulled := true; SyncMsg.Pushed := false;
              SyncMsg.Conflict := false |},
   behind,
   [CGetwd; CPlainOpen "/work"; CWorktree; CRemote "origin";
    CPrintln "Pulling from remote...";
    CPull {| PullRemoteName := "origin" |};
    CPrintln "Pushing to remote...";
    CPush {| PushRemoteName := "origin"; Force := false |}]).
Proof.
  exact (sync_after_successful_pull memgit.engine behind "/work" tt tt tt
           behind (Some NoErrAlreadyUpToDate) behind None behind
           eq_refl eq_refl eq_refl eq_refl eq_refl eq_refl eq_refl).
Defined.

Lemma sync_commits_only_a_dirty_conflict_witness :
  exists msg w' made,
    run (SyncWithRemote memgit.engine) memgit.diverged = (msg, w', made) /\
    (forall h mode, ~ In (CReset h mode) made) /\
    (forall path, In (CAdd path) made \/ (exists c o, In (CCommit c o) made) ->
       exists wt pullErr w1 status,
         Worktree_Pull memgit.engine wt {| PullRemoteName := "origin" |}
           memgit.diverged = (Some pullErr, w1) /\
         is_NoErrAlreadyUpToDate pullErr = false /\
         Worktree_Status memgit.engine wt w1 = Ok status /\
         Status_IsClean memgit.engine status = false) /\
    (forall cmsg opts, In (CCommit cmsg opts) made ->
       Name (Author opts) = ConflictAuthorName /\
       Email (Author opts) = ConflictAuthorEmail /\
       prefix "Auto-resolve conflicts: " cmsg = true /\
       In (CAdd ".") made).
Proof.
  do 3 eexists. split; [reflexivity|].
  eapply (sync_commits_only_a_dirty_conflict memgit.engine memgit.diverged).
  reflexivity.
Defined.

Lemma sync_outcome_flags_witness :
  exists s w' made,
    run (SyncWithRemote memgit.engine) memgit.diverged = (SyncMsg s, w', made) /\
    (SyncMsg.Success s = false ->
       s = noRemote /\ w' = memgit.diverged /\
       existsb is_network made = false) /\
    (SyncMsg.Success s = true ->
       In (CPull {| PullRemoteName := "origin" |}) made /\
       In (CPush {| PushRemoteName := "origin"; Force := false |}) made) /\
    (SyncMsg.Pulled s = true -> SyncMsg.Conflict s = false) /\
    (SyncMsg.Pushed s = false ->
       ~ In (CPush {| PushRemoteName := "origin"; Force := true |}) made) /\
    SyncMsg.Message s <> "".
Proof.
  do 3 eexists. split; [reflexivity|].
  eapply (sync_outcome_flags memgit.engine memgit.diverged).
  reflexivity.
Defined.


End ServiceRuns.

(** * Status and initialization *)

Section Lifecycle.
Import models tea timekeeper lifecycle Props Checks.
Variable P : Platform.



(** The loop over the status entries adds each file to the end of at most
    one list and leaves the other fields alone. *)
Lemma categorize_lists (entries : list (string * git.StatusCode))
    (g : GitStatus) :
  Modified (categorize entries g)
    = (Modified g ++ files_with git.Modified entries)%list /\
  Staged (categorize entries g)
    = (Staged g ++ files_with git.Added entries)%list /\
  Untracked (categorize entries g)
    = (Untracked g ++ files_with git.Untracked entries)%list /\
  Branch (categorize entries g) = Branch g /\
  IsClean (categorize entries g) = IsClean g /\
  LastCommit (categorize entries g) = LastCommit g /\
  Ahead (categorize entries g) = Ahead g /\
  Behind (categorize entries g) = Behind g.
Proof.
  unfold categorize, files_with. revert g.
  induction entries as [|[file code] entries IH]; intros g; cbn [fold_left].
  - cbn. rewrite !app_nil_r. repeat split; reflexivity.
  - destruct (IH (categorize_one g (file, code)))
      as (Hm & Hs & Hu & Hb & Hc & Hl & Ha & Hbe).
    rewrite Hm, Hs, Hu, Hb, Hc, Hl, Ha, Hbe.
    destruct code; cbn; rewrite <- ?app_assoc; repeat split; reflexivity.
Qed.

(** X21.  On a repository with commits the status carries the short
    name of the head, the clean flag, the last commit's message and
    short hash, and three file lists: the files whose work-tree code is
    Modified, Added and Untracked, each in the order the loop met them.
    A file with any other code is in no list. *)
Theorem LoadStatus_lists_files_by_code
    (w : World P) (pwd : string) (repo : Repository P) (wt : Worktree P)
    (status : WorktreeStatus P) (head : Hash P) (commit : Hash P * string)
    (Hwd : Getwd P w = Ok pwd)
    (Hopen : PlainOpen P pwd w = Ok repo)
    (Hwt : Repo_Worktree P repo w = Ok wt)
    (Hstatus : Worktree_Status P wt w = Ok status)
    (Hhead : Repo_Head P repo w = Ok head)
    (Hcommit : Repo_CommitObject P repo head w = Ok commit) :
  exists gs,
    LoadStatus P w = GitStatusMsg gs /\
    Branch gs = Head_Short P repo w /\
    IsClean gs = Status_IsClean P status /\
    LastCommit gs
      = (snd commit ++ " " ++ Sprintf_prec7 P (Hash_short7 P (fst commit)))%string /\
    Modified gs = files_with git.Modified (Status_Files P status) /\
    Staged gs = files_with git.Added (Status_Files P status) /\
    Untracked gs = files_with git.Untracked (Status_Files P status) /\
    Ahead gs = 0 /\ Behind gs = 0.
Proof.
  unfold LoadStatus. rewrite Hwd, Hopen, Hwt, Hstatus, Hhead, Hcommit.
  eexists. split; [reflexivity|].
  match goal with
  | |- context [categorize ?es ?g] =>
      destruct (categorize_lists es g)
        as (Hm & Hs & Hu & Hb & Hc & Hl & Ha & Hbe)
  end.
  rewrite Hm, Hs, Hu, Hb, Hc, Hl, Ha, Hbe. cbn.
  repeat split; try reflexivity.
  destruct (Head_IsBranch P repo w); reflexivity.
Qed.

(** X22.  On a repository without commits the status is the branch
    "master", the "no checkpoints" text and the clean flag, and the
    three file lists are empty, also when the work tree is not clean. *)
Theorem LoadStatus_without_commits
    (w : World P) (pwd : string) (repo : Repository P) (wt : Worktree P)
    (status : WorktreeStatus P)
    (Hwd : Getwd P w = Ok pwd)
    (Hopen : PlainOpen P pwd w = Ok repo)
    (Hwt : Repo_Worktree P repo w = Ok wt)
    (Hstatus : Worktree_Status P wt w = Ok status)
    (Hhead : Repo_Head P repo w = Fail ErrReferenceNotFound) :
  exists gs,
    LoadStatus P w = GitStatusMsg gs /\
    Branch gs = "master" /\ LastCommit gs = "Нет моментов" /\
    IsClean gs = Status_IsClean P status /\
    Modified gs = [] /\ Staged gs = [] /\ Untracked gs = [].
Proof.
  unfold LoadStatus. rewrite Hwd, Hopen, Hwt, Hstatus, Hhead. cbn.
  eexists. split; [reflexivity|]. repeat split; reflexivity.
Qed.

End Lifecycle.

(** * The program: keys, operations and their completion *)

Section Program.
Import models tea App timekeeper lifecycle program Props Checks.

(** The methods of the service return completion messages. *)
Lemma service_messages_complete (E : Engine) (w : World E) :
  is_completion (fst (fst (run (timekeeper.LoadCheckpoints E) w))) = true /\
  is_completion (fst (fst (run (timekeeper.SyncWithRemote E) w))) = true /\
  (forall d,
     is_completion (fst (fst (run (timekeeper.CreateCheckpoint E d) w))) = true) /\
  (forall h,
     is_completion (fst (fst (run (timekeeper.RollbackToCheckpoint E h) w))) = true).
Proof.
  repeat split; intros;
    unfold run, timekeeper.SyncWithRemote, syncPull, syncPush,
      timekeeper.CreateCheckpoint, timekeeper.LoadCheckpoints,
      timekeeper.RollbackToCheckpoint, orReturn, orReturn', println,
      bind, read, exec, ret, Return, log, wrap; cbn;
    repeat (match goal with
      | |- context [Getwd E ?a] => destruct (Getwd E a)
      | |- context [PlainOpen E ?a ?b] => destruct (PlainOpen E a b)
      | |- context [Repo_Worktree E ?a ?b] => destruct (Repo_Worktree E a b)
      | |- context [Repo_Remote E ?a ?b ?c] => destruct (Repo_Remote E a b c)
      | |- context [Repo_Head E ?a ?b] => destruct (Repo_Head E a b)
      | |- context [Repo_Log E ?a ?b ?c ?d] =>
          destruct (Repo_Log E a b c d) as [[? [?|]]|?]
      | |- context [Worktree_Pull E ?a ?b ?c] =>
          destruct (Worktree_Pull E a b c) as [[?|] ?]
      | |- context [is_NoErrAlreadyUpToDate ?a] =>
          destruct (is_NoErrAlreadyUpToDate a)
      | |- context [Worktree_Status E ?a ?b] => destruct (Worktree_Status E a b)
      | |- context [Status_IsClean E ?a] => destruct (Status_IsClean E a)
      | |- context [Worktree_Add E ?a ?b ?c] =>
          destruct (Worktree_Add E a b c) as [[?|?] ?]
      | |- context [Now E ?a] => destruct (Now E a) as [? ?]
      | |- context [Worktree_Commit E ?a ?b ?c ?d] =>
          destruct (Worktree_Commit E a b c d) as [[?|?] ?]
      | |- context [Worktree_Reset E ?a ?b ?c ?d] =>
          destruct (Worktree_Reset E a b c d) as [[?|] ?]
      | |- context [Remote_Push E ?a ?b ?c] =>
          destruct (Remote_Push E a b c) as [[?|] ?]
      end; cbn);
    reflexivity.
Qed.

Variable P : Platform.

(** [LoadStatus] returns a status, an error or the sign that there is
    no repository, and none of them sets off another command. *)
Lemma LoadStatus_settles (w : World P) (m : Model) :
  exists m', Update (lifecycle.LoadStatus P w) m = Ret m' None /\
             Loading m' = false.
Proof.
  unfold lifecycle.LoadStatus.
  repeat match goal with
    | |- context [match ?x with _ => _ end] =>
        match x with
        | context [match _ with _ => _ end] => fail 1
        | _ => destruct x
        end
    end;
    eexists; split; reflexivity.
Qed.

(** The three kinds of message [LoadStatus] returns. *)
Lemma LoadStatus_kinds (w : World P) :
  (exists gs, lifecycle.LoadStatus P w = GitStatusMsg gs) \/
  (exists e, lifecycle.LoadStatus P w = ErrMsg e) \/
  (exists text, lifecycle.LoadStatus P w = GitNotInitializedMsg text).
Proof.
  unfold lifecycle.LoadStatus.
  repeat match goal with
    | |- context [match ?x with _ => _ end] =>
        match x with
        | context [match _ with _ => _ end] => fail 1
        | _ => destruct x
        end
    end; eauto.
Qed.

(** Every command other than [tea.Quit] delivers a completion message. *)
Lemma perform_completes (c : Cmd) (w w' : World P) (msg : Msg) :
  perform P c w = Some (msg, w') -> is_completion msg = true.
Proof.
  destruct (service_messages_complete P w) as (Hl & Hs & Hc & Hr).
  destruct c; cbn; intros H; try discriminate H.
  - injection H as <- _.
    destruct (LoadStatus_kinds w) as [(gs & ->)|[(e & ->)|(t & ->)]]; reflexivity.
  - unfold lifecycle.InitGit in H.
    destruct (Getwd P w); [|injection H as <- _; reflexivity].
    destruct (PlainInit P a false w) as [[r|e] w1]; injection H as <- _; reflexivity.
  - destruct (run (timekeeper.LoadCheckpoints P) w) as [[msg0 w0] made].
    injection H as <- _. exact Hl.
  - destruct (run (timekeeper.SyncWithRemote P) w) as [[msg0 w0] made].
    injection H as <- _. exact Hs.
  - injection H as <- _. reflexivity.
  - specialize (Hc description).
    destruct (run (timekeeper.CreateCheckpoint P description) w) as [[msg0 w0] made].
    injection H as <- _. exact Hc.
  - specialize (Hr hash).
    destruct (run (timekeeper.RollbackToCheckpoint P hash) w) as [[msg0 w0] made].
    injection H as <- _. exact Hr.
Qed.

(** X23.  Whatever command is pending, running it and feeding its
    message back comes to rest after at most one follow-up, the status
    refresh: no handler panics, nothing stays pending, and unless the
    command was [tea.Quit] the loading flag is cleared. *)
Theorem operations_settle (c : Cmd) (m : Model) (w : World P) :
  exists m' w',
    settle P 2 m w (Some c) = Some (m', w') /\
    (c <> Quit -> Loading m' = false).
Proof.
  cbn [settle].
  destruct (perform P c w) as [[msg w1]|] eqn:Hperform.
  - destruct (completion_step msg m (perform_completes c w w1 msg Hperform))
      as (m1 & next & Hstep & Hl & [->| ->] & _).
    + rewrite Hstep. exists m1, w1. split; [reflexivity | intros _; exact Hl].
    + rewrite Hstep. cbn [perform].
      destruct (LoadStatus_settles w1 m1) as (m2 & Hstep2 & Hl2).
      rewrite Hstep2. exists m2, w1. split; [reflexivity | intros _; exact Hl2].
  - exists m, w. split; [reflexivity|].
    intros Hc. destruct c; try discriminate Hperform. now elim Hc.
Qed.

(** X24.  Started in a directory without a repository, the program
    comes to rest with the not-initialized flag and the guidance text
    set; the menu then has the single entry "initialize", and the enter
    key starts the initialization. *)
Theorem startup_without_repository (w : World P) (pwd : string)
    (Hwd : Getwd P w = Ok pwd)
    (Hopen : PlainOpen P pwd w = Fail ErrRepositoryNotExists) :
  boot P w = Some (uninitialized, w) /\
  Model_GetMenuItems uninitialized = [MenuInitGit] /\
  Update (Key key_enter) uninitialized
    = Ret (start_loading "Настраиваю пространство..." uninitialized)
          (Some tea.InitGit).
Proof.
  split; [|split; reflexivity].
  unfold boot. cbn [settle perform]. unfold lifecycle.LoadStatus.
  rewrite Hwd, Hopen. reflexivity.
Qed.

(** X25.  Confirming "initialize" runs [git init] and then the status
    refresh.  When the initialization fails, its error is shown and the
    repository stays uninitialized; when it succeeds, the flag follows
    the refresh, and a refresh that returns a status leaves no error
    and the full four-entry menu. *)
Theorem initialization_from_the_menu (m : Model) (w w1 : World P)
    (pwd : string) (r : res (Repository P))
    (Hloading : Loading m = false)
    (Hdescr : DescriptionMode m = false)
    (Hhist : HistoryMode m = false)
    (Huninit : GitNotInitialized m = true)
    (Hsel : Selected m = 0)
    (Hwd : Getwd P w = Ok pwd)
    (Hinit : PlainInit P pwd false w = (r, w1)) :
  exists m',
    press P 2 key_enter m w = Some (m', w1) /\
    Loading m' = false /\
    match r with
    | Ok _ =>
        GitNotInitialized m' =
          (match lifecycle.LoadStatus P w1 with
           | GitNotInitializedMsg _ => true
           | _ => false
           end) /\
        (forall gs, lifecycle.LoadStatus P w1 = GitStatusMsg gs ->
           Status m' = Some gs /\ Err m' = None /\
           Model_GetMenuItems m' = GetMenuItems)
    | Fail e =>
        GitNotInitialized m' = true /\
        Err m' = Some (ErrWrap "не удалось запустить машину времени" e)
    end.
Proof.
  destruct m as [st er sel qu cps hm hsel ld lt sm ssm gni dm di sg].
  cbn in Hloading, Hdescr, Hhist, Huninit, Hsel. subst.
  unfold press. cbn [Update]. unfold handleKeyMsg, clearSyncMessage.
  destruct ssm; cbn -[lifecycle.LoadStatus]; unfold lifecycle.InitGit;
    rewrite Hwd, Hinit;
    destruct r as [repo|e]; cbn -[lifecycle.LoadStatus];
    try (eexists; split; [reflexivity|]; split; [reflexivity|];
         split; reflexivity);
    destruct (LoadStatus_kinds w1) as [(gs0 & Hls)|[(e0 & Hls)|(t0 & Hls)]];
    rewrite Hls; cbn; eexists; (split; [reflexivity|]); (split; [reflexivity|]);
    (split; [reflexivity|]); intros gs Hgs; try discriminate Hgs;
    injection Hgs as <-; repeat split; reflexivity.
Qed.

(** X26.  When the head cannot be resolved, as in a repository
    without commits, loading the history returns that error without
    consulting the log, and the history hotkey ends in the main menu
    with the error shown, not in an empty history list. *)
Theorem history_needs_a_commit (m : Model) (w : World P)
    (pwd : string) (repo : Repository P) (e : error)
    (Hloading : Loading m = false)
    (Hdescr : DescriptionMode m = false)
    (Hhist : HistoryMode m = false)
    (Hinit : GitNotInitialized m = false)
    (Hwd : Getwd P w = Ok pwd)
    (Hopen : PlainOpen P pwd w = Ok repo)
    (Hhead : Repo_Head P repo w = Fail e) :
  run (timekeeper.LoadCheckpoints P) w
    = (ErrMsg e, w, [CGetwd; CPlainOpen pwd; CHead]) /\
  exists m',
    press P 2 (key_char "h" 104) m w = Some (m', w) /\
    HistoryMode m' = false /\ Loading m' = false /\ Err m' = Some e /\
    Checkpoints m' = Checkpoints m.
Proof.
  assert (Hrun : run (timekeeper.LoadCheckpoints P) w
                 = (ErrMsg e, w, [CGetwd; CPlainOpen pwd; CHead])).
  { unfold run, timekeeper.LoadCheckpoints, orReturn, bind, read, ret, Return,
      log. cbn. rewrite Hwd. cbn. rewrite Hopen. cbn. rewrite Hhead.
    reflexivity. }
  split; [exact Hrun|].
  assert (Hstep : Update (Key (key_char "h" 104)) m
                  = Ret (start_loading "Вспоминаем былое..."
                           (set_Selected 1 (clearSyncMessage m)))
                        (Some tea.LoadCheckpoints)).
  { destruct m as [st er sel qu cps hm hsel ld lt sm ssm gni dm di sg].
    cbn in Hloading, Hdescr, Hhist, Hinit. subst.
    destruct ssm; reflexivity. }
  unfold press. rewrite Hstep. cbn [settle perform]. rewrite Hrun.
  cbn [fst Update]. eexists. split; [reflexivity|].
  unfold clearSyncMessage. destruct (ShowSyncMessage m); cbn;
    repeat split; assumption || reflexivity.
Qed.

End Program.

(** ** The program run on the directory in memory *)

Section ProgramRuns.
Import models tea App timekeeper lifecycle program Props Checks.

Lemma LoadStatus_lists_files_by_code_witness :
  exists gs,
    LoadStatus dirgit.platform (Some memgit.diverged) = GitStatusMsg gs /\
    Branch gs = "master" /\
    IsClean gs = false /\
    LastCommit gs = "first c" /\
    Modified gs = ["notes.txt"] /\
    Staged gs = [] /\
    Untracked gs = [] /\
    Ahead gs = 0 /\ Behind gs = 0.
Proof.
  exact (LoadStatus_lists_files_by_code dirgit.platform (Some memgit.diverged)
           "/work" tt tt (false, [("notes.txt", git.Modified)]) "c"
           ("c", "first") eq_refl eq_refl eq_refl eq_refl eq_refl eq_refl).
Defined.

Lemma LoadStatus_without_commits_witness :
  exists gs,
    LoadStatus dirgit.platform (Some dirgit.empty_repo) = GitStatusMsg gs /\
    Branch gs = "master" /\ LastCommit gs = "Нет моментов" /\
    IsClean gs = true /\
    Modified gs = [] /\ Staged gs = [] /\ Untracked gs = [].
Proof.
  exact (LoadStatus_without_commits dirgit.platform (Some dirgit.empty_repo)
           "/work" tt tt (true, []) eq_refl eq_refl eq_refl eq_refl eq_refl).
Defined.

Lemma startup_without_repository_witness :
  boot dirgit.platform None = Some (uninitialized, None) /\
  Model_GetMenuItems uninitialized = [MenuInitGit] /\
  Update (Key key_enter) uninitialized
    = Ret (start_loading "Настраиваю пространство..." uninitialized)
          (Some tea.InitGit).
Proof.
  exact (startup_without_repository dirgit.platform None "/work"
           eq_refl eq_refl).
Defined.

Lemma initialization_from_the_menu_witness :
  exists m',
    press dirgit.platform 2 key_enter uninitialized None
      = Some (m', Some dirgit.empty_repo) /\
    Loading m' = false /\
    GitNotInitialized m' = false /\
    (forall gs,
        LoadStatus dirgit.platform (Some dirgit.empty_repo) = GitStatusMsg gs ->
        Status m' = Some gs /\ Err m' = None /\
        Model_GetMenuItems m' = GetMenuItems).
Proof.
  exact (initialization_from_the_menu dirgit.platform uninitialized None
           (Some dirgit.empty_repo) "/work" (Ok tt)
           eq_refl eq_refl eq_refl eq_refl eq_refl eq_refl eq_refl).
Defined.

Lemma history_needs_a_commit_witness :
  run (timekeeper.LoadCheckpoints dirgit.platform) (Some dirgit.empty_repo)
    = (ErrMsg ErrReferenceNotFound, Some dirgit.empty_repo,
       [CGetwd; CPlainOpen "/work"; CHead]) /\
  exists m',
    press dirgit.platform 2 (key_char "h" 104) initial (Some dirgit.empty_repo)
      = Some (m', Some dirgit.empty_repo) /\
    HistoryMode m' = false /\ Loading m' = false /\
    Err m' = Some ErrReferenceNotFound /\
    Checkpoints m' = Checkpoints initial.
Proof.
  exact (history_needs_a_commit dirgit.platform initial
           (Some dirgit.empty_repo) "/work" tt ErrReferenceNotFound
           eq_refl eq_refl eq_refl eq_refl eq_refl eq_refl eq_refl).
Defined.

End ProgramRuns.
